(** * Command catalog and administration console

    A shallow embedding of the two stateful pages of the application,
    [src/pages/Commands.tsx] (the catalog) and [src/pages/Admin.tsx] (the
    administration console), together with the part of the hosted row
    store they talk to.

    - JavaScript strings are modelled as [string] (sequences of 8-bit
      characters); [===] on strings is [String.eqb].
    - React state is a record per page; a handler takes the state captured
      by its closure and returns the state after its [set...] calls.
    - Every [await supabase...] is one round trip against a [World] that
      holds the two tables, the outcomes of the upcoming round trips, the
      queries awaited so far, and the console and alert output.
    - [try { ... } catch { ... } finally { ... }] is an error monad over
      the world. *)

From Stdlib Require Import String Ascii List Bool Arith ZArith Lia Permutation.
From Stdlib Require OrderedTypeEx.
Import ListNotations.
Open Scope string_scope.
Open Scope list_scope.

Set Implicit Arguments.

(* ================================================================== *)
(** * JavaScript string helpers                                        *)
(* ================================================================== *)

(** [String.prototype.toLowerCase] as it acts on ASCII text: 'A'..'Z' go
    to 'a'..'z', every other character is left as it is. On text with
    other characters the builtin does more (it lowers every cased letter
    and looks at the context of a capital sigma), so what is said below of
    such text is said for the builtin as a parameter, see [filtered_with]. *)
Definition lower_ascii (c : ascii) : ascii :=
  let n := nat_of_ascii c in
  if (65 <=? n)%nat && (n <=? 90)%nat then ascii_of_nat (n + 32) else c.

Fixpoint toLowerCase (s : string) : string :=
  match s with
  | EmptyString => EmptyString
  | String c s' => String (lower_ascii c) (toLowerCase s')
  end.

(** [s.includes(q)]: does [q] occur in [s] as a contiguous run. *)
Fixpoint includes (s q : string) : bool :=
  if prefix q s then true
  else match s with
       | EmptyString => false
       | String _ s' => includes s' q
       end.

(** Truthiness of a string in a condition: [if (searchTerm)]. *)
Definition truthy (s : string) : bool :=
  match s with EmptyString => false | _ => true end.

(* ================================================================== *)
(** * Data model: the rows mirrored from the store                     *)
(* ================================================================== *)

Module Command.
Record t := mk {
  id : string;
  name : string;
  description : string;
  command : string;
  category : string;
  created_at : string;
  updated_at : string;
  created_by : string;
  is_active : bool
}.

(** [{ ...cmd, is_active: b }] *)
Definition with_is_active (b : bool) (c : t) : t :=
  mk (id c) (name c) (description c) (command c) (category c)
     (created_at c) (updated_at c) (created_by c) b.
End Command.

Module UserProfile.
Record t := mk {
  id : string;
  email : string;
  full_name : string;
  is_admin : bool;
  created_at : string;
  updated_at : string
}.

(** [{ ...user, is_admin: b }] *)
Definition with_is_admin (b : bool) (u : t) : t :=
  mk (id u) (email u) (full_name u) b (created_at u) (updated_at u).
End UserProfile.

(** The identity handed out by [useAuth()]; only its [id] is read. *)
Record AuthUser := { auth_id : string }.

(** [Omit<Command, 'id' | 'created_at' | 'updated_at' | 'created_by'>] *)
Record CommandData := {
  cd_name : string;
  cd_description : string;
  cd_command : string;
  cd_category : string;
  cd_is_active : bool
}.

(** [Partial<Command>]: every field may be absent. *)
Record CommandPatch := {
  p_id : option string;
  p_name : option string;
  p_description : option string;
  p_command : option string;
  p_category : option string;
  p_created_at : option string;
  p_updated_at : option string;
  p_created_by : option string;
  p_is_active : option bool
}.

(** The [Update] shape of [user_profiles], restricted to the two columns
    the application ever writes. *)
Record UserPatch := {
  up_is_admin : option bool;
  up_updated_at : option string
}.

(** The row the insert call sends: [{ ...commandData, created_by }]. *)
Record CommandInsert := {
  ins_data : CommandData;
  ins_created_by : string
}.

Definition or_else {A} (o : option A) (d : A) : A :=
  match o with Some a => a | None => d end.

Definition patch_command (p : CommandPatch) (c : Command.t) : Command.t :=
  Command.mk
    (or_else (p_id p) (Command.id c))
    (or_else (p_name p) (Command.name c))
    (or_else (p_description p) (Command.description c))
    (or_else (p_command p) (Command.command c))
    (or_else (p_category p) (Command.category c))
    (or_else (p_created_at p) (Command.created_at c))
    (or_else (p_updated_at p) (Command.updated_at c))
    (or_else (p_created_by p) (Command.created_by c))
    (or_else (p_is_active p) (Command.is_active c)).

Definition patch_user (p : UserPatch) (u : UserProfile.t) : UserProfile.t :=
  UserProfile.mk
    (UserProfile.id u) (UserProfile.email u) (UserProfile.full_name u)
    (or_else (up_is_admin p) (UserProfile.is_admin u))
    (UserProfile.created_at u)
    (or_else (up_updated_at p) (UserProfile.updated_at u)).

(** [{ ...updates, updated_at: now }] *)
Definition stamp (now : string) (p : CommandPatch) : CommandPatch :=
  Build_CommandPatch (p_id p) (p_name p) (p_description p) (p_command p)
    (p_category p) (p_created_at p) (Some now) (p_created_by p)
    (p_is_active p).

(** [{ is_active: b }] *)
Definition patch_is_active (b : bool) : CommandPatch :=
  Build_CommandPatch None None None None None None None None (Some b).

(* ================================================================== *)
(** * The hosted row store and the browser, as seen by the pages       *)
(* ================================================================== *)

(** The row filters the pages chain onto a query: none, [.eq('id', v)]
    and [.neq('id', v)]. *)
Inductive IdFilter :=
| AnyId
| EqId (v : string)
| NeqId (v : string).

Definition id_matches (f : IdFilter) (row_id : string) : bool :=
  match f with
  | AnyId => true
  | EqId v => row_id =? v
  | NeqId v => negb (row_id =? v)
  end.

(** The requests the two pages send. *)
Inductive Request :=
| SelectCommands (only_active : bool)
| SelectUsers
| InsertCommand (row : CommandInsert)
| UpdateCommands (p : CommandPatch) (f : IdFilter) (single : bool)
| DeleteCommands (f : IdFilter)
| UpdateUsers (p : UserPatch) (f : IdFilter).

Definition is_mutation (rq : Request) : bool :=
  match rq with
  | SelectCommands _ | SelectUsers => false
  | _ => true
  end.

Inductive Error :=
| RequestFailed      (* the round trip came back with an error *)
| NotSingleRow.      (* [.single()] on a result that is not one row *)

(** What an awaited query resolves to: [{ data, error }] with exactly one
    of the two set. *)
Inductive Response (A : Type) :=
| Data (data : A)
| Failed (error : Error).
Arguments Data {A} data.
Arguments Failed {A} error.

Record World := mkWorld {
  tbl_commands : list Command.t;   (* table [commands] *)
  tbl_users : list UserProfile.t;  (* table [user_profiles] *)
  net : list bool;                 (* outcome of each upcoming round trip,
                                      [false] = it fails; none left = ok *)
  wire : list Request;             (* queries awaited so far, oldest first *)
  console : list string;           (* [console.error] lines *)
  alerts : list string             (* [alert] boxes shown *)
}.

Definition mutations (w : World) : list Request := filter is_mutation (wire w).

(** ** The monad of an [async] handler body *)

Inductive Outcome (A : Type) :=
| Returned (a : A)
| Thrown (e : Error).
Arguments Returned {A} a.
Arguments Thrown {A} e.

Definition Io (A : Type) : Type := World -> Outcome A * World.

Definition ret {A} (a : A) : Io A := fun w => (Returned a, w).

Definition bind {A B} (c : Io A) (k : A -> Io B) : Io B :=
  fun w =>
    match c w with
    | (Returned a, w') => k a w'
    | (Thrown e, w') => (Thrown e, w')
    end.

Definition throw {A} (e : Error) : Io A := fun w => (Thrown e, w).

(** [try { body } catch (error) { handler }] *)
Definition try_catch {A} (body : Io A) (handler : Error -> Io A) : Io A :=
  fun w =>
    match body w with
    | (Returned a, w') => (Returned a, w')
    | (Thrown e, w') => handler e w'
    end.

Declare Scope io_scope.
Delimit Scope io_scope with io.
Notation "x <- c1 ;; c2" := (bind c1 (fun x => c2))
  (at level 61, c1 at next level, right associativity) : io_scope.
Notation "c1 ;; c2" := (bind c1 (fun _ => c2))
  (at level 61, right associativity) : io_scope.
Open Scope io_scope.

(** [if (error) throw error], then go on with [data]. *)
Definition check {A} (r : Response A) : Io A :=
  match r with
  | Data d => ret d
  | Failed e => throw e
  end.

Definition console_error (msg : string) : Io unit :=
  fun w => (Returned tt,
            mkWorld (tbl_commands w) (tbl_users w) (net w) (wire w)
                    (console w ++ [msg]) (alerts w)).

Definition alert (msg : string) : Io unit :=
  fun w => (Returned tt,
            mkWorld (tbl_commands w) (tbl_users w) (net w) (wire w)
                    (console w) (alerts w ++ [msg])).

(** ** One round trip

    The request goes on the wire and uses up one outcome of [net]. When
    that outcome is a failure the tables are left alone and the response
    carries the error; otherwise [serve] computes the response and the
    new tables. *)
Definition round_trip {A} (rq : Request)
    (serve : list Command.t -> list UserProfile.t ->
             Response A * list Command.t * list UserProfile.t)
    : Io (Response A) :=
  fun w =>
    let sent := wire w ++ [rq] in
    match net w with
    | false :: rest =>
        (Returned (Failed RequestFailed),
         mkWorld (tbl_commands w) (tbl_users w) rest sent
                 (console w) (alerts w))
    | rest =>
        let '(r, cs, us) := serve (tbl_commands w) (tbl_users w) in
        (Returned r, mkWorld cs us (tl rest) sent (console w) (alerts w))
    end.

(** ** [.order('created_at', { ascending: false })]

    A stable insertion sort on the timestamp strings, newest first. *)
Section Order.
Variable A : Type.
Variable created_at : A -> string.

Fixpoint insert_desc (x : A) (l : list A) : list A :=
  match l with
  | [] => [x]
  | y :: l' =>
      if String.leb (created_at y) (created_at x) then x :: y :: l'
      else y :: insert_desc x l'
  end.

Fixpoint order_desc (l : list A) : list A :=
  match l with
  | [] => []
  | x :: l' => insert_desc x (order_desc l')
  end.
End Order.

(** ** The queries of the two pages *)

(** [from('commands').select('*')[.eq('is_active', true)].order(...)] *)
Definition commands_select (only_active : bool) : Io (Response (list Command.t)) :=
  round_trip (SelectCommands only_active) (fun cs us =>
    let rows := if only_active then filter Command.is_active cs else cs in
    (Data (order_desc Command.created_at rows), cs, us)).

(** [from('user_profiles').select('*').order(...)] *)
Definition users_select : Io (Response (list UserProfile.t)) :=
  round_trip SelectUsers (fun cs us =>
    (Data (order_desc UserProfile.created_at us), cs, us)).

(** The row the store makes of an insert: it assigns the id and both
    timestamps. *)
Definition inserted_row (row : CommandInsert) (srv_id srv_now : string) : Command.t :=
  let d := ins_data row in
  Command.mk srv_id (cd_name d) (cd_description d) (cd_command d)
             (cd_category d) srv_now srv_now (ins_created_by row)
             (cd_is_active d).

(** [from('commands').insert(row).select().single()] *)
Definition commands_insert_single (row : CommandInsert)
    (srv_id srv_now : string) : Io (Response Command.t) :=
  round_trip (InsertCommand row) (fun cs us =>
    let r := inserted_row row srv_id srv_now in
    (Data r, cs ++ [r], us)).

Definition update_where {A} (sel : A -> bool) (f : A -> A) (l : list A) : list A :=
  map (fun x => if sel x then f x else x) l.

(** [from('commands').update(p).eq/neq('id', v)] *)
Definition commands_update (p : CommandPatch) (f : IdFilter) : Io (Response unit) :=
  round_trip (UpdateCommands p f false) (fun cs us =>
    (Data tt,
     update_where (fun c => id_matches f (Command.id c)) (patch_command p) cs,
     us)).

(** [from('commands').update(p).eq('id', v).select().single()]: the
    patched row comes back; anything but exactly one matching row is an
    error and changes nothing. *)
Definition commands_update_single (p : CommandPatch) (f : IdFilter)
    : Io (Response Command.t) :=
  round_trip (UpdateCommands p f true) (fun cs us =>
    match filter (fun c => id_matches f (Command.id c)) cs with
    | [c] =>
        (Data (patch_command p c),
         update_where (fun c => id_matches f (Command.id c)) (patch_command p) cs,
         us)
    | _ => (Failed NotSingleRow, cs, us)
    end).

(** [from('commands').delete().eq/neq('id', v)] *)
Definition commands_delete (f : IdFilter) : Io (Response unit) :=
  round_trip (DeleteCommands f) (fun cs us =>
    (Data tt, filter (fun c => negb (id_matches f (Command.id c))) cs, us)).

(** [from('user_profiles').update(p).eq/neq('id', v)] *)
Definition users_update (p : UserPatch) (f : IdFilter) : Io (Response unit) :=
  round_trip (UpdateUsers p f) (fun cs us =>
    (Data tt, cs,
     update_where (fun u => id_matches f (UserProfile.id u)) (patch_user p) us)).

(** [arr.find(pred)] *)
Definition find_first {A} (pred : A -> bool) (l : list A) : option A :=
  List.find pred l.

(** [arr.length], as a JavaScript number. *)
Definition len {A} (l : list A) : Z := Z.of_nat (length l).

(* ================================================================== *)
(** * The catalog page ([src/pages/Commands.tsx])                      *)
(* ================================================================== *)

Module Commands.

(** The [useState] cells of the component. *)
Record State := mkState {
  commands : list Command.t;
  filteredCommands : list Command.t;
  loading : bool;
  searchTerm : string;
  selectedCategory : string;
  showAddModal : bool;
  editingCommand : option Command.t;
  copiedId : option string
}.

(** [useState] initial values. *)
Definition initial : State :=
  mkState [] [] true "" "all" false None None.

Definition setCommands (v : list Command.t) (st : State) : State :=
  mkState v (filteredCommands st) (loading st) (searchTerm st)
          (selectedCategory st) (showAddModal st) (editingCommand st)
          (copiedId st).
Definition setFilteredCommands (v : list Command.t) (st : State) : State :=
  mkState (commands st) v (loading st) (searchTerm st)
          (selectedCategory st) (showAddModal st) (editingCommand st)
          (copiedId st).
Definition setLoading (v : bool) (st : State) : State :=
  mkState (commands st) (filteredCommands st) v (searchTerm st)
          (selectedCategory st) (showAddModal st) (editingCommand st)
          (copiedId st).
Definition setSearchTerm (v : string) (st : State) : State :=
  mkState (commands st) (filteredCommands st) (loading st) v
          (selectedCategory st) (showAddModal st) (editingCommand st)
          (copiedId st).
Definition setSelectedCategory (v : string) (st : State) : State :=
  mkState (commands st) (filteredCommands st) (loading st) (searchTerm st)
          v (showAddModal st) (editingCommand st) (copiedId st).
Definition setShowAddModal (v : bool) (st : State) : State :=
  mkState (commands st) (filteredCommands st) (loading st) (searchTerm st)
          (selectedCategory st) v (editingCommand st) (copiedId st).
Definition setEditingCommand (v : option Command.t) (st : State) : State :=
  mkState (commands st) (filteredCommands st) (loading st) (searchTerm st)
          (selectedCategory st) (showAddModal st) v (copiedId st).

(** The arrow function given to the first [filter]. *)
Definition matches_search (searchTerm : string) (cmd : Command.t) : bool :=
  includes (toLowerCase (Command.name cmd)) (toLowerCase searchTerm)
  || includes (toLowerCase (Command.description cmd)) (toLowerCase searchTerm)
  || includes (toLowerCase (Command.command cmd)) (toLowerCase searchTerm).

(** The arrow function given to the second [filter]. *)
Definition matches_category (selectedCategory : string) (cmd : Command.t) : bool :=
  Command.category cmd =? selectedCategory.

(** The value of the local [filtered] when [filterCommands] hands it to
    [setFilteredCommands]. *)
Definition filtered (commands : list Command.t)
    (searchTerm selectedCategory : string) : list Command.t :=
  let filtered := commands in
  let filtered :=
    if truthy searchTerm then filter (matches_search searchTerm) filtered
    else filtered in
  let filtered :=
    if negb (selectedCategory =? "all")
    then filter (matches_category selectedCategory) filtered
    else filtered in
  filtered.

(** [filterCommands], run by the effect on [commands], [searchTerm] and
    [selectedCategory]. *)
Definition filterCommands (st : State) : State :=
  setFilteredCommands
    (filtered (commands st) (searchTerm st) (selectedCategory st)) st.

Definition fetchCommands (st : State) : Io State :=
  st' <- try_catch
           (r <- commands_select true ;;
            data <- check r ;;
            ret (setCommands data st))
           (fun _ => console_error "Error fetching commands:" ;; ret st) ;;
  ret (setLoading false st').

(** [srv_id] and [srv_now] are the id and the timestamp the store gives
    the new row. *)
Definition handleAddCommand (st : State) (user : option AuthUser)
    (commandData : CommandData) (srv_id srv_now : string) : Io State :=
  match user with
  | None => ret st
  | Some user =>
      try_catch
        (r <- commands_insert_single
                (Build_CommandInsert commandData (auth_id user))
                srv_id srv_now ;;
         data <- check r ;;
         ret (setShowAddModal false
                (setCommands (data :: commands st) st)))
        (fun _ => console_error "Error adding command:" ;; ret st)
  end.

(** [now] is [new Date().toISOString()]. *)
Definition handleUpdateCommand (st : State) (id : string)
    (updates : CommandPatch) (now : string) : Io State :=
  try_catch
    (r <- commands_update_single (stamp now updates) (EqId id) ;;
     data <- check r ;;
     ret (setEditingCommand None
            (setCommands
               (map (fun cmd => if Command.id cmd =? id then data else cmd)
                    (commands st))
               st)))
    (fun _ => console_error "Error updating command:" ;; ret st).

(** [confirmed] is the operator's answer to the [confirm] dialog. *)
Definition handleDeleteCommand (st : State) (id : string)
    (confirmed : bool) : Io State :=
  if negb confirmed then ret st
  else
    try_catch
      (r <- commands_update (patch_is_active false) (EqId id) ;;
       _ <- check r ;;
       ret (setCommands
              (filter (fun cmd => negb (Command.id cmd =? id)) (commands st))
              st))
      (fun _ => console_error "Error deleting command:" ;; ret st).

End Commands.

(* ================================================================== *)
(** * The administration page ([src/pages/Admin.tsx])                  *)
(* ================================================================== *)

Module Admin.

Record AdminStats := mkStats {
  totalUsers : Z;
  totalCommands : Z;
  activeCommands : Z;
  adminUsers : Z
}.

Record State := mkState {
  activeTab : string;
  users : list UserProfile.t;
  commands : list Command.t;
  stats : AdminStats;
  loading : bool
}.

Definition initial : State :=
  mkState "overview" [] [] (mkStats 0 0 0 0) true.

Definition setUsers (v : list UserProfile.t) (st : State) : State :=
  mkState (activeTab st) v (commands st) (stats st) (loading st).
Definition setCommands (v : list Command.t) (st : State) : State :=
  mkState (activeTab st) (users st) v (stats st) (loading st).
Definition setStats (f : AdminStats -> AdminStats) (st : State) : State :=
  mkState (activeTab st) (users st) (commands st) (f (stats st)) (loading st).
Definition setLoading (v : bool) (st : State) : State :=
  mkState (activeTab st) (users st) (commands st) (stats st) v.

Definition fetchData (st : State) : Io State :=
  st' <- try_catch
           (ru <- users_select ;;
            usersData <- check ru ;;
            rc <- commands_select false ;;
            commandsData <- check rc ;;
            let totalUsers := len usersData in
            let totalCommands := len commandsData in
            let activeCommands := len (filter Command.is_active commandsData) in
            let adminUsers := len (filter UserProfile.is_admin usersData) in
            ret (setStats
                   (fun _ => mkStats totalUsers totalCommands
                                     activeCommands adminUsers)
                   (setCommands commandsData (setUsers usersData st))))
           (fun _ => console_error "Error fetching admin data:" ;; ret st) ;;
  ret (setLoading false st').

Definition toggleUserAdmin (st : State) (userId : string) (isAdmin : bool)
    (now : string) : Io State :=
  try_catch
    (r <- users_update
            (Build_UserPatch (Some (negb isAdmin)) (Some now))
            (EqId userId) ;;
     _ <- check r ;;
     ret (setUsers
            (map (fun user =>
                    if UserProfile.id user =? userId
                    then UserProfile.with_is_admin (negb isAdmin) user
                    else user)
                 (users st))
            st))
    (fun _ => console_error "Error updating user admin status:" ;; ret st).

Definition deleteCommand (st : State) (commandId : string)
    (confirmed : bool) : Io State :=
  if negb confirmed then ret st
  else
    try_catch
      (r <- commands_delete (EqId commandId) ;;
       _ <- check r ;;
       let was_active :=
         match find_first (fun cmd => Command.id cmd =? commandId)
                          (commands st) with
         | Some cmd => Command.is_active cmd
         | None => false
         end in
       ret (setStats
              (fun prev =>
                 mkStats (totalUsers prev)
                         (totalCommands prev - 1)
                         (activeCommands prev - (if was_active then 1 else 0))
                         (adminUsers prev))
              (setCommands
                 (filter (fun cmd => negb (Command.id cmd =? commandId))
                         (commands st))
                 st)))
      (fun _ => console_error "Error deleting command:" ;; ret st).

Definition toggleCommandStatus (st : State) (commandId : string)
    (isActive : bool) (now : string) : Io State :=
  try_catch
    (r <- commands_update (stamp now (patch_is_active (negb isActive)))
                          (EqId commandId) ;;
     _ <- check r ;;
     ret (setStats
            (fun prev =>
               mkStats (totalUsers prev) (totalCommands prev)
                       (activeCommands prev + (if isActive then -1 else 1))
                       (adminUsers prev))
            (setCommands
               (map (fun cmd =>
                       if Command.id cmd =? commandId
                       then Command.with_is_active (negb isActive) cmd
                       else cmd)
                    (commands st))
               st)))
    (fun _ => console_error "Error updating command status:" ;; ret st).

(** The all-zero id of the delete filter. *)
Definition nil_uuid : string := "00000000-0000-0000-0000-000000000000".

(** [user?.id] as the filter value: the id, or the text of [undefined]. *)
Definition optional_id (user : option AuthUser) : string :=
  match user with
  | Some u => auth_id u
  | None => "undefined"
  end.

(** [prompt(...) !== 'RESET']; [None] is a cancelled prompt. *)
Definition prompt_differs (typed : option string) : bool :=
  match typed with
  | Some s => negb (s =? "RESET")
  | None => true
  end.

(** [confirm1] and [confirm2] are the operator's answers to the two
    [confirm] dialogs and [typed] what goes into the prompt; the prompt
    is only looked at when the second dialog was accepted. *)
Definition resetDatabase (st : State) (user : option AuthUser)
    (confirm1 confirm2 : bool) (typed : option string) : Io State :=
  if negb confirm1 then ret st
  else if negb confirm2 || prompt_differs typed then ret st
  else
    try_catch
      (rc <- commands_delete (NeqId nil_uuid) ;;
       _ <- check rc ;;
       ru <- users_update (Build_UserPatch (Some false) None)
                          (NeqId (optional_id user)) ;;
       _ <- check ru ;;
       _ <- alert "Database reset successfully!" ;;
       fetchData st)
      (fun _ =>
         _ <- console_error "Error resetting database:" ;;
         _ <- alert "Error resetting database. Please try again." ;;
         ret st).

End Admin.

(* ================================================================== *)
(** * The form dialog and what the pages render                        *)
(* ================================================================== *)

(** The [CommandModal] component of [Commands.tsx]. *)
Module CommandModal.

(** The initial [formData], also set by the effect when there is no
    command to edit. *)
Definition blank : CommandData :=
  Build_CommandData "" "" "" "system" true.

(** The effect on [command]: the form is loaded from the command being
    edited, or blanked. *)
Definition loadFormData (command : option Command.t) : CommandData :=
  match command with
  | Some c =>
      Build_CommandData (Command.name c) (Command.description c)
        (Command.command c) (Command.category c) (Command.is_active c)
  | None => blank
  end.

(** The four controls of the form; each [onChange] is
    [setFormData({ ...formData, field: e.target.value })]. *)
Inductive Input :=
| NameInput (v : string)
| CategorySelect (v : string)
| DescriptionInput (v : string)
| CommandInput (v : string).

Definition onChange (i : Input) (formData : CommandData) : CommandData :=
  match i with
  | NameInput v =>
      Build_CommandData v (cd_description formData) (cd_command formData)
        (cd_category formData) (cd_is_active formData)
  | CategorySelect v =>
      Build_CommandData (cd_name formData) (cd_description formData)
        (cd_command formData) v (cd_is_active formData)
  | DescriptionInput v =>
      Build_CommandData (cd_name formData) v (cd_command formData)
        (cd_category formData) (cd_is_active formData)
  | CommandInput v =>
      Build_CommandData (cd_name formData) (cd_description formData) v
        (cd_category formData) (cd_is_active formData)
  end.

(** The form after a sequence of changes, oldest first. *)
Definition fill (inputs : list Input) (formData : CommandData) : CommandData :=
  fold_left (fun f i => onChange i f) inputs formData.

End CommandModal.

(** The parts of the [Commands] component's render that decide something. *)
Module CommandsRender.

Definition categories : list string :=
  ["all"; "system"; "network"; "database"; "development"; "security";
   "monitoring"; "deployment"].

(** [categories.filter(cat => cat !== 'all')], the options of the form. *)
Definition formCategories : list string :=
  filter (fun cat => negb (cat =? "all")) categories.

(** [(isAdmin || command.created_by === user?.id)]: are the edit and
    delete buttons of a card rendered. *)
Definition showsControls (isAdmin : bool) (user : option AuthUser)
    (command : Command.t) : bool :=
  isAdmin
  || match user with
     | Some u => Command.created_by command =? auth_id u
     | None => false
     end.

(** [isOpen={showAddModal || !!editingCommand}] *)
Definition isOpen (st : Commands.State) : bool :=
  Commands.showAddModal st
  || match Commands.editingCommand st with Some _ => true | None => false end.

Definition onClose (st : Commands.State) : Commands.State :=
  Commands.setEditingCommand None (Commands.setShowAddModal false st).

(** The form object handed to [handleUpdateCommand] as [updates]. *)
Definition as_updates (data : CommandData) : CommandPatch :=
  Build_CommandPatch None (Some (cd_name data)) (Some (cd_description data))
    (Some (cd_command data)) (Some (cd_category data)) None None None
    (Some (cd_is_active data)).

(** [onSubmit]: an update of the command being edited when there is one,
    an add otherwise. *)
Definition onSubmit (st : Commands.State) (user : option AuthUser)
    (data : CommandData) (srv_id srv_now now : string) : Io Commands.State :=
  match Commands.editingCommand st with
  | Some editingCommand =>
      Commands.handleUpdateCommand st (Command.id editingCommand)
        (as_updates data) now
  | None => Commands.handleAddCommand st user data srv_id srv_now
  end.

End CommandsRender.

(** The parts of the [Admin] component's render that decide something. *)
Module AdminRender.

(** [commands.slice(0, 5)], the rows under "Recent Activity". *)
Definition recentActivity (st : Admin.State) : list Command.t :=
  firstn 5 (Admin.commands st).

End AdminRender.

(* ================================================================== *)
(** * The specification's vocabulary                                   *)
(* ================================================================== *)

Open Scope string_scope.

(** Some contiguous run of [s] has the same ASCII fold as [q]. *)
Definition ci_substring (q s : string) : Prop :=
  exists a m b, s = a ++ m ++ b /\ toLowerCase m = toLowerCase q.

(** The category half of the rule, as a test. *)
Definition spec_category_ok (selector : string) (c : Command.t) : bool :=
  (Command.category c =? selector) || (selector =? "all").

(** ** The filter with the builtin as a parameter

    [filterCommands] again, with [lower] standing for
    [String.prototype.toLowerCase]; [Commands.filtered] is the instance at
    the ASCII fold. *)
Definition matches_search_with (lower : string -> string)
    (searchTerm : string) (cmd : Command.t) : bool :=
  includes (lower (Command.name cmd)) (lower searchTerm)
  || includes (lower (Command.description cmd)) (lower searchTerm)
  || includes (lower (Command.command cmd)) (lower searchTerm).

Definition filtered_with (lower : string -> string)
    (commands : list Command.t) (searchTerm selectedCategory : string)
    : list Command.t :=
  let filtered := commands in
  let filtered :=
    if truthy searchTerm
    then filter (matches_search_with lower searchTerm) filtered
    else filtered in
  let filtered :=
    if negb (selectedCategory =? "all")
    then filter (Commands.matches_category selectedCategory) filtered
    else filtered in
  filtered.

(** "The lower-cased query is a substring of the lower-cased text." *)
Definition lowered_occurs (lower : string -> string) (q s : string) : Prop :=
  exists a b, lower s = a ++ lower q ++ b.

(** The inclusion rule in terms of lower-cased forms. *)
Definition spec_included_lowered (lower : string -> string)
    (query selector : string) (c : Command.t) : Prop :=
  (Command.category c = selector \/ selector = "all")
  /\ (query = ""
      \/ lowered_occurs lower query (Command.name c)
      \/ lowered_occurs lower query (Command.description c)
      \/ lowered_occurs lower query (Command.command c)).

(** ASCII text: every character is below 128. *)
Fixpoint is_ascii (s : string) : bool :=
  match s with
  | EmptyString => true
  | String c s' => (nat_of_ascii c <? 128)%nat && is_ascii s'
  end.

(** Two characters are the same letter: equal, or a capital 'A'..'Z' and
    its small form. This does not go through the fold. *)
Definition same_letter (c d : ascii) : bool :=
  let m := nat_of_ascii c in
  let n := nat_of_ascii d in
  (m =? n)%nat
  || ((65 <=? m)%nat && (m <=? 90)%nat && (n =? m + 32)%nat)
  || ((65 <=? n)%nat && (n <=? 90)%nat && (m =? n + 32)%nat).

(** Two texts are equal up to the case of their letters. *)
Fixpoint eq_ignoring_case (s t : string) : bool :=
  match s, t with
  | EmptyString, EmptyString => true
  | String c s', String d t' => same_letter c d && eq_ignoring_case s' t'
  | _, _ => false
  end.

(** "[q] is a case-insensitive substring of [s]", letter by letter: some
    contiguous run of [s] equals [q] up to the case of its letters. *)
Definition ci_run (q s : string) : Prop :=
  exists a m b, s = a ++ m ++ b /\ eq_ignoring_case m q = true.

(** The inclusion rule of the specification, letter by letter. *)
Definition spec_included_ascii (query selector : string) (c : Command.t)
    : Prop :=
  (Command.category c = selector \/ selector = "all")
  /\ (query = ""
      \/ ci_run query (Command.name c)
      \/ ci_run query (Command.description c)
      \/ ci_run query (Command.command c)).

(** The builtin folds ASCII text as [toLowerCase] does. *)
Definition folds_ascii (lower : string -> string) : Prop :=
  forall s, is_ascii s = true -> lower s = toLowerCase s.

(** ** A Greek sample

    The text is held as UTF-8 bytes. [String.prototype.toLowerCase] gives
    a capital sigma that ends a word the final form: "ΟΔΟΣ" lowers to
    "οδος", while "Σ" alone lowers to "σ". [lower_greek_sample] has these
    two values and is the ASCII fold elsewhere. *)
Definition lower_greek_sample (s : string) : string :=
  if s =? "ΟΔΟΣ" then "οδος"
  else if s =? "Σ" then "σ"
  else toLowerCase s.

Definition odos : Command.t :=
  Command.mk "c-6" "ΟΔΟΣ" "street names" "ls /srv/streets" "system"
             "2024-01-06" "2024-01-06" "u-1" true.

(** The next [n] round trips all succeed. *)
Definition next_ok (n : nat) (w : World) : bool :=
  forallb (fun ok => ok) (firstn n (net w)).

(** The next round trip fails. *)
Definition next_fails (w : World) : bool :=
  match net w with
  | false :: _ => true
  | _ => false
  end.

(** The operator did not go through with the reset: a dialog was
    declined, or the prompt was cancelled or holds something else than
    "RESET". *)
Definition reset_declined (confirm1 confirm2 : bool) (typed : option string) : Prop :=
  confirm1 = false \/ confirm2 = false \/ typed <> Some "RESET".

(** What a handler leaves behind when its remote call failed: the page
    state it started from, both tables untouched, one line on the
    console. *)
Definition swallowed {S} (st : S) (msg : string) (w : World)
    (r : Outcome S * World) : Prop :=
  fst r = Returned st
  /\ tbl_commands (snd r) = tbl_commands w
  /\ tbl_users (snd r) = tbl_users w
  /\ console (snd r) = (console w ++ [msg])%list.

(** The handler came back without an exception. *)
Definition returns {S} (r : Outcome S * World) : Prop :=
  exists st, fst r = Returned st.

(** The command counts on the administration page are those of its list
    of commands. *)
Definition command_counts_agree (st : Admin.State) : Prop :=
  Admin.totalCommands (Admin.stats st) = len (Admin.commands st)
  /\ Admin.activeCommands (Admin.stats st)
     = len (filter Command.is_active (Admin.commands st)).

(** The user counts on the administration page are those of its list of
    users. *)
Definition user_counts_agree (st : Admin.State) : Prop :=
  Admin.totalUsers (Admin.stats st) = len (Admin.users st)
  /\ Admin.adminUsers (Admin.stats st)
     = len (filter UserProfile.is_admin (Admin.users st)).

(** [a] is at least as recent as [b]. *)
Definition not_older (a b : Command.t) : Prop :=
  String.leb (Command.created_at b) (Command.created_at a) = true.

(** Every row is at least as recent as all the rows after it. *)
Fixpoint newest_first (l : list Command.t) : Prop :=
  match l with
  | [] => True
  | x :: l' => (forall y, In y l' -> not_older x y) /\ newest_first l'
  end.

(** The two rows differ at most in [is_active]. *)
Definition same_but_is_active (a b : Command.t) : Prop :=
  Command.with_is_active true a = Command.with_is_active true b.

(** ** Concrete rows used to run the model *)

Module Demo.
Definition cmd (id name text category created : string) (active : bool)
    : Command.t :=
  Command.mk id name ("about " ++ name) text category created created
             "u-1" active.

Definition ls := cmd "c-1" "List files" "ls -la" "system" "2024-01-01" true.
Definition ping := cmd "c-2" "Ping host" "ping -c 4 host" "network" "2024-01-02" true.
Definition df := cmd "c-3" "Disk usage" "df -h" "system" "2024-01-03" true.
Definition top := cmd "c-4" "Processes" "top" "monitoring" "2024-01-04" false.
Definition psql := cmd "c-5" "Postgres shell" "psql" "database" "2024-01-05" false.
Definition ghost :=
  cmd Admin.nil_uuid "Seed row" "true" "system" "2023-12-31" true.

Definition three : list Command.t := [ls; ping; df].
Definition five : list Command.t := [ls; ping; df; top; psql].

Definition usr (id email : string) (admin : bool) : UserProfile.t :=
  UserProfile.mk id email email admin "2024-01-01" "2024-01-01".

Definition root := usr "u-1" "root@example.org" true.
Definition ann := usr "u-2" "ann@example.org" true.
Definition bob := usr "u-3" "bob@example.org" false.

Definition operator : AuthUser := {| auth_id := "u-1" |}.

Definition world (cs : list Command.t) (us : list UserProfile.t)
    (outcomes : list bool) : World :=
  mkWorld cs us outcomes [] [] [].

Definition form : CommandData :=
  Build_CommandData "Uptime" "how long the host is up" "uptime" "system" true.

Definition rename : CommandPatch :=
  Build_CommandPatch None (Some "List all files") None None None None None
                     None None.

Definition catalog : Commands.State :=
  Commands.filterCommands (Commands.setCommands three Commands.initial).

Definition console_ : Admin.State :=
  Admin.mkState "users" [root; ann; bob] five (Admin.mkStats 3 5 3 2) false.
End Demo.

(* ================================================================== *)
(** * Strings: [includes] and case folding                             *)
(* ================================================================== *)

Lemma prefix_iff (q s : string) :
  prefix q s = true <-> exists t, s = q ++ t.
Proof.
  revert s. induction q as [|c q IH]; intros s.
  - split; [intros _; now exists s | intros _; now destruct s].
  - destruct s as [|d s]; simpl.
    + split; [discriminate | intros [t Ht]; discriminate].
    + destruct (ascii_dec c d) as [->|Hne].
      * rewrite IH. split; intros [t Ht]; exists t.
        -- now rewrite Ht.
        -- now injection Ht.
      * split; [discriminate |].
        intros [t Ht]. injection Ht as Hd _. now elim Hne.
Qed.

Lemma includes_unfold (s q : string) :
  includes s q =
  if prefix q s then true
  else match s with
       | EmptyString => false
       | String _ s' => includes s' q
       end.
Proof. destruct s; reflexivity. Qed.

Lemma includes_iff (s q : string) :
  includes s q = true <-> exists a b, s = a ++ q ++ b.
Proof.
  induction s as [|c s IH]; rewrite includes_unfold.
  - destruct (prefix q "") eqn:Hp.
    + apply prefix_iff in Hp. destruct Hp as [t Ht].
      split; [intros _; now exists "", t | reflexivity].
    + split; [discriminate |].
      intros [a [b Hab]]. destruct a; [|discriminate]. simpl in Hab.
      assert (prefix q "" = true) by (apply prefix_iff; now exists b).
      congruence.
  - destruct (prefix q (String c s)) eqn:Hp.
    + apply prefix_iff in Hp. destruct Hp as [t Ht].
      split; [intros _; now exists "", t | reflexivity].
    + rewrite IH. split.
      * intros [a [b Hab]]. exists (String c a), b. simpl. now rewrite Hab.
      * intros [a [b Hab]]. destruct a as [|d a]; simpl in Hab.
        -- assert (prefix q (String c s) = true)
             by (apply prefix_iff; now exists b).
           congruence.
        -- injection Hab as _ Hs. now exists a, b.
Qed.

Lemma includes_empty (s : string) : includes s "" = true.
Proof. apply includes_iff. now exists "", s. Qed.

Lemma toLowerCase_app (a b : string) :
  toLowerCase (a ++ b) = toLowerCase a ++ toLowerCase b.
Proof. induction a as [|c a IH]; simpl; [reflexivity | now rewrite IH]. Qed.

Lemma toLowerCase_app_inv (s x y : string) :
  toLowerCase s = x ++ y ->
  exists a b, s = a ++ b /\ toLowerCase a = x /\ toLowerCase b = y.
Proof.
  revert s. induction x as [|c x IH]; intros s H; simpl in H.
  - now exists "", s.
  - destruct s as [|d s]; simpl in H; [discriminate |].
    injection H as Hc Hs.
    destruct (IH _ Hs) as [a [b [-> [Ha Hb]]]].
    exists (String d a), b. simpl. now rewrite Hc, Ha, Hb.
Qed.

(** The test of the code under the ASCII fold, which works letter by
    letter. *)
Lemma includes_lower_iff (s q : string) :
  includes (toLowerCase s) (toLowerCase q) = true <-> ci_substring q s.
Proof.
  rewrite includes_iff. split.
  - intros [x [y H]].
    destruct (toLowerCase_app_inv _ _ _ H) as [a [r [-> [Ha Hr]]]].
    destruct (toLowerCase_app_inv _ _ _ Hr) as [m [b [-> [Hm Hb]]]].
    now exists a, m, b.
  - intros [a [m [b [-> Hm]]]].
    exists (toLowerCase a), (toLowerCase b).
    now rewrite !toLowerCase_app, Hm.
Qed.

Lemma truthy_false_iff (s : string) : truthy s = false <-> s = "".
Proof. destruct s; simpl; split; congruence. Qed.

Lemma matches_search_iff (q : string) (c : Command.t) :
  Commands.matches_search q c = true <->
  ci_substring q (Command.name c)
  \/ ci_substring q (Command.description c)
  \/ ci_substring q (Command.command c).
Proof.
  unfold Commands.matches_search.
  rewrite !orb_true_iff, !includes_lower_iff. tauto.
Qed.

Lemma matches_search_empty (c : Command.t) :
  Commands.matches_search "" c = true.
Proof.
  unfold Commands.matches_search. simpl. now rewrite includes_empty.
Qed.

Lemma filter_matches_search_empty (l : list Command.t) :
  filter (Commands.matches_search "") l = l.
Proof.
  induction l as [|c l IH]; simpl; [reflexivity |].
  now rewrite matches_search_empty, IH.
Qed.

(* ================================================================== *)
(** * The filtered view of the catalog                                 *)
(* ================================================================== *)

Open Scope list_scope.

Lemma filtered_as_filters (L : list Command.t) (Q C : string) :
  Commands.filtered L Q C =
  filter (spec_category_ok C) (filter (Commands.matches_search Q) L).
Proof.
  unfold Commands.filtered, spec_category_ok.
  destruct (truthy Q) eqn:HQ.
  - destruct (String.eqb_spec C "all") as [->|HC]; simpl.
    + symmetry. apply forallb_filter_id, forallb_forall.
      intros c _. apply orb_true_r.
    + apply filter_ext. intros c. unfold Commands.matches_category.
      now rewrite orb_false_r.
  - apply truthy_false_iff in HQ. subst Q.
    rewrite filter_matches_search_empty.
    destruct (String.eqb_spec C "all") as [->|HC]; simpl.
    + symmetry. apply forallb_filter_id, forallb_forall.
      intros c _. apply orb_true_r.
    + apply filter_ext. intros c. unfold Commands.matches_category.
      now rewrite orb_false_r.
Qed.

Lemma spec_category_ok_iff (C : string) (c : Command.t) :
  spec_category_ok C c = true <-> Command.category c = C \/ C = "all".
Proof.
  unfold spec_category_ok.
  now rewrite orb_true_iff, !String.eqb_eq.
Qed.

(** C2: the two predicates of the filter can be applied one after the
    other: filtering by query [Q] and category [C] at once gives the same
    list as filtering by [Q] under category "all" and then by [C] under
    the empty query. The same holds for the view the effect stores. *)
Theorem filtered_decomposes :
  (forall (L : list Command.t) (Q C : string),
     Commands.filtered L Q C
     = Commands.filtered (Commands.filtered L Q "all") "" C)
  /\ (forall (st : Commands.State) (Q C : string),
        let view L Q C :=
          Commands.filteredCommands
            (Commands.filterCommands
               (Commands.setSelectedCategory C
                  (Commands.setSearchTerm Q (Commands.setCommands L st)))) in
        view (Commands.commands st) Q C
        = view (view (Commands.commands st) Q "all") "" C).
Proof.
  split; intros; reflexivity.
Qed.

(** ** Letter by letter, and with the builtin as a parameter *)

Open Scope string_scope.

Lemma lower_ascii_code (c : ascii) :
  nat_of_ascii (lower_ascii c)
  = if (65 <=? nat_of_ascii c)%nat && (nat_of_ascii c <=? 90)%nat
    then nat_of_ascii c + 32 else nat_of_ascii c.
Proof.
  unfold lower_ascii. cbv zeta.
  destruct ((65 <=? nat_of_ascii c)%nat && (nat_of_ascii c <=? 90)%nat) eqn:E;
    [|reflexivity].
  apply andb_true_iff in E. destruct E as [_ E]. apply Nat.leb_le in E.
  apply nat_ascii_embedding. lia.
Qed.

Lemma nat_of_ascii_inj (c d : ascii) : nat_of_ascii c = nat_of_ascii d -> c = d.
Proof.
  intros H. rewrite <- (ascii_nat_embedding c), <- (ascii_nat_embedding d).
  now rewrite H.
Qed.

(** The fold identifies exactly the characters that are the same letter. *)
Lemma lower_ascii_same_letter (c d : ascii) :
  lower_ascii c = lower_ascii d <-> same_letter c d = true.
Proof.
  unfold same_letter. cbv zeta.
  rewrite !orb_true_iff, !andb_true_iff, !Nat.eqb_eq, !Nat.leb_le.
  split.
  - intros H. apply (f_equal nat_of_ascii) in H.
    rewrite !lower_ascii_code in H.
    destruct (Nat.leb_spec 65 (nat_of_ascii c)),
             (Nat.leb_spec (nat_of_ascii c) 90),
             (Nat.leb_spec 65 (nat_of_ascii d)),
             (Nat.leb_spec (nat_of_ascii d) 90); simpl in H; lia.
  - intros H. apply nat_of_ascii_inj. rewrite !lower_ascii_code.
    destruct (Nat.leb_spec 65 (nat_of_ascii c)),
             (Nat.leb_spec (nat_of_ascii c) 90),
             (Nat.leb_spec 65 (nat_of_ascii d)),
             (Nat.leb_spec (nat_of_ascii d) 90); simpl; lia.
Qed.

Lemma toLowerCase_eq_iff (m q : string) :
  toLowerCase m = toLowerCase q <-> eq_ignoring_case m q = true.
Proof.
  revert q. induction m as [|c m IH]; intros [|d q]; simpl;
    try (split; [discriminate | discriminate]); [tauto |].
  rewrite andb_true_iff, <- IH, <- lower_ascii_same_letter.
  split; [intros H; now injection H | intros [-> ->]; reflexivity].
Qed.

Lemma ci_substring_iff_run (q s : string) : ci_substring q s <-> ci_run q s.
Proof.
  split; intros [a [m [b [Hs Hm]]]]; exists a, m, b; split; auto;
    now apply toLowerCase_eq_iff.
Qed.

Lemma matches_search_with_iff (lower : string -> string) (q : string)
    (c : Command.t) :
  matches_search_with lower q c = true <->
  lowered_occurs lower q (Command.name c)
  \/ lowered_occurs lower q (Command.description c)
  \/ lowered_occurs lower q (Command.command c).
Proof.
  unfold matches_search_with, lowered_occurs.
  rewrite !orb_true_iff, !includes_iff. tauto.
Qed.

Open Scope list_scope.

Lemma filtered_with_as_filters (lower : string -> string)
    (L : list Command.t) (Q C : string) :
  filtered_with lower L Q C =
  filter (spec_category_ok C)
         (if truthy Q then filter (matches_search_with lower Q) L else L).
Proof.
  unfold filtered_with, spec_category_ok. cbv zeta.
  destruct (String.eqb_spec C "all") as [->|HC]; simpl.
  - symmetry. apply forallb_filter_id, forallb_forall.
    intros c _. apply orb_true_r.
  - apply filter_ext. intros c. unfold Commands.matches_category.
    now rewrite orb_false_r.
Qed.

Lemma filtered_with_membership (lower : string -> string)
    (L : list Command.t) (Q C : string) (c : Command.t) :
  In c (filtered_with lower L Q C) <->
  In c L /\ spec_included_lowered lower Q C c.
Proof.
  rewrite filtered_with_as_filters, filter_In, spec_category_ok_iff.
  unfold spec_included_lowered.
  destruct (truthy Q) eqn:HQ.
  - rewrite filter_In, matches_search_with_iff.
    assert (Q <> ""%string) by (intros ->; discriminate). tauto.
  - apply truthy_false_iff in HQ. tauto.
Qed.




(** C5 as the specification states it fails: with the query "zzz", which
    no command of the three-command catalog matches, selecting "system"
    shows nothing instead of the two system-tagged commands. *)
Lemma system_selection_depends_on_query :
  map Command.category Demo.three = ["system"; "network"; "system"]
  /\ Commands.filtered Demo.three "zzz" "system" = []
  /\ Commands.filtered Demo.three "zzz" "system" <> [Demo.ls; Demo.df].
Proof.
  split; [reflexivity | split; [reflexivity | discriminate]].
Qed.

(** C5, amended: in a catalog of three commands tagged system, network,
    system, selecting "system" shows those of the two system-tagged
    commands that match the query, in their order; under the empty query
    it shows exactly the two. *)
Theorem system_selection (c1 c2 c3 : Command.t) :
  Command.category c1 = "system" ->
  Command.category c2 = "network" ->
  Command.category c3 = "system" ->
  (forall Q, Commands.filtered [c1; c2; c3] Q "system"
             = filter (Commands.matches_search Q) [c1; c3])
  /\ Commands.filtered [c1; c2; c3] "" "system" = [c1; c3].
Proof.
  intros H1 H2 H3.
  assert (forall Q, Commands.filtered [c1; c2; c3] Q "system"
                    = filter (Commands.matches_search Q) [c1; c3]) as HQ.
  { intros Q. rewrite filtered_as_filters.
    unfold spec_category_ok. simpl.
    destruct (Commands.matches_search Q c1),
             (Commands.matches_search Q c2),
             (Commands.matches_search Q c3); simpl;
      rewrite ?H1, ?H2, ?H3; reflexivity. }
  split; [exact HQ |].
  rewrite HQ. apply filter_matches_search_empty.
Qed.

Lemma system_selection_witness :
  (forall Q, Commands.filtered Demo.three Q "system"
             = filter (Commands.matches_search Q) [Demo.ls; Demo.df])
  /\ Commands.filtered Demo.three "" "system" = [Demo.ls; Demo.df].
Proof.
  apply (system_selection Demo.ls Demo.ping Demo.df); reflexivity.
Defined.

(* ================================================================== *)
(** * Round trips                                                      *)
(* ================================================================== *)

(** Split a world into its fields and the next outcome of [net]. *)
Ltac split_world w :=
  let cs := fresh "cs" in
  let us := fresh "us" in
  let nt := fresh "nt" in
  let wr := fresh "wr" in
  let co := fresh "co" in
  let al := fresh "al" in
  destruct w as [cs us nt wr co al];
  unfold next_ok, next_fails in *; simpl in *;
  try discriminate.

(** Unfold one handler down to the round trips it makes. *)
Ltac run_io :=
  unfold try_catch, bind, check, ret, throw, console_error, alert,
    commands_select, users_select, commands_insert_single,
    commands_update, commands_update_single, commands_delete, users_update,
    round_trip in *;
  simpl in *.

Lemma next_ok_succ (n : nat) (w : World) :
  next_ok (S n) w = true ->
  next_fails w = false
  /\ forall cs us wr co al, next_ok n (mkWorld cs us (tl (net w)) wr co al) = true.
Proof.
  split_world w. destruct nt as [|[] nt]; simpl; intros H;
    try discriminate; split; try reflexivity; intros.
  - now destruct n.
  - exact H.
Qed.

(** A failed round trip leaves both tables as they were. *)
Lemma failed_round_trip_keeps_tables {A} (rq : Request) serve (w w' : World) (e : Error) :
  (forall cs us, match serve cs us with
                 | (Failed _, cs', us') => cs' = cs /\ us' = us
                 | _ => True
                 end) ->
  @round_trip A rq serve w = (Returned (Failed e), w') ->
  tbl_commands w' = tbl_commands w /\ tbl_users w' = tbl_users w
  /\ console w' = console w /\ alerts w' = alerts w
  /\ wire w' = wire w ++ [rq].
Proof.
  intros Hserve H. unfold round_trip in H.
  destruct (net w) as [|[] rest].
  - specialize (Hserve (tbl_commands w) (tbl_users w)).
    destruct (serve (tbl_commands w) (tbl_users w)) as [[r cs] us].
    inversion H; subst; simpl. destruct Hserve as [-> ->]. tauto.
  - specialize (Hserve (tbl_commands w) (tbl_users w)).
    destruct (serve (tbl_commands w) (tbl_users w)) as [[r cs] us].
    inversion H; subst; simpl. destruct Hserve as [-> ->]. tauto.
  - inversion H; subst; simpl. tauto.
Qed.

(* ================================================================== *)
(** * Guards and failures                                              *)
(* ================================================================== *)

(** C10: without a signed-in user, adding a command returns at once: the
    page state (command list and dialog flag included) and the world
    (tables and wire) are what they were, so no insert was sent. *)
Theorem add_without_user_is_noop :
  forall (st : Commands.State) (commandData : CommandData)
         (srv_id srv_now : string) (w : World),
    Commands.handleAddCommand st None commandData srv_id srv_now w
    = (Returned st, w).
Proof. reflexivity. Qed.

(** C9: when the remote call of a command update, of a command status
    toggle or of a user admin toggle fails, the handler catches the
    error, logs it and returns the page state unchanged. *)
Theorem failed_call_keeps_state :
  (forall st id updates now w e,
     fst (commands_update_single (stamp now updates) (EqId id) w)
     = Returned (Failed e) ->
     swallowed st "Error updating command:" w
       (Commands.handleUpdateCommand st id updates now w))
  /\ (forall st commandId isActive now w e,
        fst (commands_update (stamp now (patch_is_active (negb isActive)))
                             (EqId commandId) w)
        = Returned (Failed e) ->
        swallowed st "Error updating command status:" w
          (Admin.toggleCommandStatus st commandId isActive now w))
  /\ (forall st userId isAdmin now w e,
        fst (users_update (Build_UserPatch (Some (negb isAdmin)) (Some now))
                          (EqId userId) w)
        = Returned (Failed e) ->
        swallowed st "Error updating user admin status:" w
          (Admin.toggleUserAdmin st userId isAdmin now w)).
Proof.
  split; [|split].
  - intros st id updates now w e H.
    unfold Commands.handleUpdateCommand, try_catch, bind.
    destruct (commands_update_single _ _ w) as [r w'] eqn:E.
    simpl in H. subst r.
    apply failed_round_trip_keeps_tables in E.
    + unfold swallowed. simpl. intuition congruence.
    + intros cs us.
      destruct (filter _ cs) as [|c [|c' l]]; auto.
  - intros st commandId isActive now w e H.
    unfold Admin.toggleCommandStatus, try_catch, bind.
    destruct (commands_update _ _ w) as [r w'] eqn:E.
    simpl in H. subst r.
    apply failed_round_trip_keeps_tables in E; [|now intros].
    unfold swallowed. simpl. intuition congruence.
  - intros st userId isAdmin now w e H.
    unfold Admin.toggleUserAdmin, try_catch, bind.
    destruct (users_update _ _ w) as [r w'] eqn:E.
    simpl in H. subst r.
    apply failed_round_trip_keeps_tables in E; [|now intros].
    unfold swallowed. simpl. intuition congruence.
Qed.

Lemma failed_call_keeps_state_witness :
  swallowed Demo.catalog "Error updating command:"
    (Demo.world Demo.three [Demo.root] [false])
    (Commands.handleUpdateCommand Demo.catalog "c-1" Demo.rename "2024-02-01"
       (Demo.world Demo.three [Demo.root] [false]))
  /\ swallowed Demo.catalog "Error updating command:"
       (Demo.world Demo.three [Demo.root] [])
       (Commands.handleUpdateCommand Demo.catalog "c-404" Demo.rename
          "2024-02-01" (Demo.world Demo.three [Demo.root] []))
  /\ swallowed Demo.console_ "Error updating command status:"
       (Demo.world Demo.five [Demo.root; Demo.ann; Demo.bob] [false])
       (Admin.toggleCommandStatus Demo.console_ "c-1" true "2024-02-01"
          (Demo.world Demo.five [Demo.root; Demo.ann; Demo.bob] [false]))
  /\ swallowed Demo.console_ "Error updating user admin status:"
       (Demo.world Demo.five [Demo.root; Demo.ann; Demo.bob] [false])
       (Admin.toggleUserAdmin Demo.console_ "u-3" false "2024-02-01"
          (Demo.world Demo.five [Demo.root; Demo.ann; Demo.bob] [false])).
Proof.
  destruct failed_call_keeps_state as [Hupdate [Hstatus Hadmin]].
  split; [|split; [|split]].
  - apply (Hupdate _ _ _ _ _ RequestFailed). reflexivity.
  - apply (Hupdate _ _ _ _ _ NotSingleRow). reflexivity.
  - apply (Hstatus _ _ _ _ _ RequestFailed). reflexivity.
  - apply (Hadmin _ _ _ _ _ RequestFailed). reflexivity.
Defined.

(* ================================================================== *)
(** * Lists: ordering, counting, unique ids                            *)
(* ================================================================== *)

Section OrderFacts.
Variable A : Type.
Variable key : A -> string.

Lemma insert_desc_perm (x : A) (l : list A) :
  Permutation (insert_desc key x l) (x :: l).
Proof.
  induction l as [|y l IH]; simpl; [apply Permutation_refl |].
  destruct (String.leb (key y) (key x)); [apply Permutation_refl |].
  eapply perm_trans; [apply perm_skip, IH | apply perm_swap].
Qed.

Lemma order_desc_perm (l : list A) : Permutation (order_desc key l) l.
Proof.
  induction l as [|x l IH]; simpl; [constructor |].
  eapply perm_trans; [apply insert_desc_perm | now apply perm_skip].
Qed.

Lemma order_desc_In (x : A) (l : list A) :
  In x (order_desc key l) <-> In x l.
Proof.
  split; apply Permutation_in;
    [apply order_desc_perm | apply Permutation_sym, order_desc_perm].
Qed.

Lemma order_desc_length (l : list A) :
  length (order_desc key l) = length l.
Proof. apply Permutation_length, order_desc_perm. Qed.

Lemma filter_perm_length (p : A -> bool) (l l' : list A) :
  Permutation l l' -> length (filter p l) = length (filter p l').
Proof.
  induction 1 as [|x l l' _ IH|x y l|l l' l'' _ IH1 _ IH2]; simpl.
  - reflexivity.
  - destruct (p x); simpl; congruence.
  - destruct (p x), (p y); reflexivity.
  - congruence.
Qed.

Lemma order_desc_count (p : A -> bool) (l : list A) :
  length (filter p (order_desc key l)) = length (filter p l).
Proof. apply filter_perm_length, order_desc_perm. Qed.

Lemma filter_split_length (p : A -> bool) (l : list A) :
  length (filter p l) + length (filter (fun x => negb (p x)) l) = length l.
Proof.
  induction l as [|x l IH]; simpl; [reflexivity |].
  destruct (p x); simpl; lia.
Qed.

(** Two rows of a list without repeated keys that share a key are the
    same row. *)
Lemma unique_key (l : list A) (x y : A) :
  NoDup (map key l) -> In x l -> In y l -> key x = key y -> x = y.
Proof.
  induction l as [|z l IH]; simpl; [tauto |].
  intros Hnd Hx Hy Hk. inversion Hnd as [|? ? Hz Hl]; subst.
  destruct Hx as [->|Hx], Hy as [->|Hy]; auto.
  - elim Hz. rewrite Hk. now apply in_map.
  - elim Hz. rewrite <- Hk. now apply in_map.
Qed.
End OrderFacts.

Lemma update_where_In {A} (sel : A -> bool) (f : A -> A) (l : list A) (y : A) :
  In y (update_where sel f l) <->
  exists x, In x l /\ y = if sel x then f x else x.
Proof.
  unfold update_where. rewrite in_map_iff.
  split; intros [x [H1 H2]]; exists x; auto.
Qed.

(* ================================================================== *)
(** * What each handler does when its round trips succeed              *)
(* ================================================================== *)

Lemma toggleUserAdmin_ok (st : Admin.State) (userId : string) (isAdmin : bool)
    (now : string) (w : World) :
  next_fails w = false ->
  Admin.toggleUserAdmin st userId isAdmin now w =
  (Returned
     (Admin.setUsers
        (map (fun user =>
                if UserProfile.id user =? userId
                then UserProfile.with_is_admin (negb isAdmin) user
                else user)
             (Admin.users st))
        st),
   mkWorld (tbl_commands w)
     (update_where (fun u => UserProfile.id u =? userId)
        (patch_user (Build_UserPatch (Some (negb isAdmin)) (Some now)))
        (tbl_users w))
     (tl (net w))
     (wire w ++ [UpdateUsers (Build_UserPatch (Some (negb isAdmin)) (Some now))
                             (EqId userId)])
     (console w) (alerts w)).
Proof.
  intros H. split_world w. destruct nt as [|[] nt]; try discriminate;
    reflexivity.
Qed.

Lemma toggleCommandStatus_ok (st : Admin.State) (commandId : string)
    (isActive : bool) (now : string) (w : World) :
  next_fails w = false ->
  Admin.toggleCommandStatus st commandId isActive now w =
  (Returned
     (Admin.setStats
        (fun prev =>
           Admin.mkStats (Admin.totalUsers prev) (Admin.totalCommands prev)
             (Admin.activeCommands prev + (if isActive then -1 else 1))
             (Admin.adminUsers prev))
        (Admin.setCommands
           (map (fun cmd =>
                   if Command.id cmd =? commandId
                   then Command.with_is_active (negb isActive) cmd
                   else cmd)
                (Admin.commands st))
           st)),
   mkWorld
     (update_where (fun c => Command.id c =? commandId)
        (patch_command (stamp now (patch_is_active (negb isActive))))
        (tbl_commands w))
     (tbl_users w) (tl (net w))
     (wire w ++ [UpdateCommands (stamp now (patch_is_active (negb isActive)))
                                (EqId commandId) false])
     (console w) (alerts w)).
Proof.
  intros H. split_world w. destruct nt as [|[] nt]; try discriminate;
    reflexivity.
Qed.

Lemma handleDeleteCommand_ok (st : Commands.State) (id : string) (w : World) :
  next_fails w = false ->
  Commands.handleDeleteCommand st id true w =
  (Returned
     (Commands.setCommands
        (filter (fun cmd => negb (Command.id cmd =? id)) (Commands.commands st))
        st),
   mkWorld
     (update_where (fun c => Command.id c =? id)
        (patch_command (patch_is_active false)) (tbl_commands w))
     (tbl_users w) (tl (net w))
     (wire w ++ [UpdateCommands (patch_is_active false) (EqId id) false])
     (console w) (alerts w)).
Proof.
  intros H. split_world w. destruct nt as [|[] nt]; try discriminate;
    reflexivity.
Qed.

Lemma fetchCommands_ok (st : Commands.State) (w : World) :
  next_fails w = false ->
  Commands.fetchCommands st w =
  (Returned
     (Commands.setLoading false
        (Commands.setCommands
           (order_desc Command.created_at
              (filter Command.is_active (tbl_commands w)))
           st)),
   mkWorld (tbl_commands w) (tbl_users w) (tl (net w))
     (wire w ++ [SelectCommands true]) (console w) (alerts w)).
Proof.
  intros H. split_world w. destruct nt as [|[] nt]; try discriminate;
    reflexivity.
Qed.

Lemma fetchData_ok (st : Admin.State) (w : World) :
  next_ok 2 w = true ->
  let usersData := order_desc UserProfile.created_at (tbl_users w) in
  let commandsData := order_desc Command.created_at (tbl_commands w) in
  Admin.fetchData st w =
  (Returned
     (Admin.mkState (Admin.activeTab st) usersData commandsData
        (Admin.mkStats (len usersData) (len commandsData)
           (len (filter Command.is_active commandsData))
           (len (filter UserProfile.is_admin usersData)))
        false),
   mkWorld (tbl_commands w) (tbl_users w) (tl (tl (net w)))
     (wire w ++ [SelectUsers; SelectCommands false]) (console w) (alerts w)).
Proof.
  intros H. split_world w.
  destruct nt as [|[] [|[] nt]]; try discriminate;
    unfold Admin.fetchData; run_io; rewrite <- ?app_assoc; reflexivity.
Qed.

(** Fetching never throws and never writes to a table. *)
Lemma fetchData_reads_only (st : Admin.State) (w : World) :
  exists st' w',
    Admin.fetchData st w = (Returned st', w')
    /\ tbl_commands w' = tbl_commands w
    /\ tbl_users w' = tbl_users w
    /\ mutations w' = mutations w.
Proof.
  split_world w. unfold mutations.
  destruct nt as [|[] [|[] nt]]; unfold Admin.fetchData; run_io;
    do 2 eexists; (split; [reflexivity |]); simpl;
    rewrite ?filter_app; simpl; rewrite ?app_nil_r; auto.
Qed.

(* ================================================================== *)
(** * The administration page: users                                   *)
(* ================================================================== *)

(** Toggling the admin flag never touches the summary counts. *)
Lemma toggleUserAdmin_keeps_stats (st : Admin.State) (userId : string)
    (isAdmin : bool) (now : string) (w : World) :
  exists st' w',
    Admin.toggleUserAdmin st userId isAdmin now w = (Returned st', w')
    /\ Admin.stats st' = Admin.stats st.
Proof.
  split_world w. destruct nt as [|[] nt];
    unfold Admin.toggleUserAdmin; run_io; eauto.
Qed.

(** C4, on a console that has just fetched three users of which two are
    administrators: granting the third the admin flag flips it in the
    store and in the local list, and [stats.adminUsers] still reads 2
    while three users now carry the flag. *)
Theorem toggle_admin_leaves_count_stale :
  exists st0 w0 st1 w1,
    Admin.fetchData Admin.initial
      (Demo.world Demo.five [Demo.root; Demo.ann; Demo.bob] [])
    = (Returned st0, w0)
    /\ Admin.adminUsers (Admin.stats st0) = 2%Z
    /\ In Demo.bob (Admin.users st0)
    /\ Admin.toggleUserAdmin st0 (UserProfile.id Demo.bob)
         (UserProfile.is_admin Demo.bob) "2024-02-01" w0
       = (Returned st1, w1)
    /\ map UserProfile.is_admin (tbl_users w1) = [true; true; true]
    /\ map UserProfile.is_admin (Admin.users st1) = [true; true; true]
    /\ len (filter UserProfile.is_admin (Admin.users st1)) = 3%Z
    /\ Admin.adminUsers (Admin.stats st1) = 2%Z.
Proof.
  do 4 eexists.
  split; [reflexivity |].
  split; [reflexivity |].
  split; [simpl; tauto |].
  split; [reflexivity |].
  repeat split; reflexivity.
Qed.

Lemma with_is_admin_id (b : bool) (u : UserProfile.t) :
  UserProfile.id (UserProfile.with_is_admin b u) = UserProfile.id u.
Proof. reflexivity. Qed.



(* ================================================================== *)
(** * The administration page: commands and counts                     *)
(* ================================================================== *)

Lemma next_ok_1 (w : World) : next_ok 1 w = true -> next_fails w = false.
Proof. intros H. now apply next_ok_succ in H. Qed.

(** C6: with five command rows of which two are inactive, a successful
    fetch sets [activeCommands] to 3 and [totalCommands] to 5; a
    successful status toggle on any command the view shows as active then
    leaves [activeCommands] at 2 and [totalCommands] at 5. *)
Theorem stats_after_deactivation (st : Admin.State) (w : World) :
  length (tbl_commands w) = 5 ->
  length (filter (fun c => negb (Command.is_active c)) (tbl_commands w)) = 2 ->
  next_ok 2 w = true ->
  exists st1 w1,
    Admin.fetchData st w = (Returned st1, w1)
    /\ length (Admin.commands st1) = 5
    /\ length (filter (fun c => negb (Command.is_active c))
                      (Admin.commands st1)) = 2
    /\ Admin.activeCommands (Admin.stats st1) = 3%Z
    /\ Admin.totalCommands (Admin.stats st1) = 5%Z
    /\ forall (c : Command.t) (now : string),
         In c (Admin.commands st1) ->
         Command.is_active c = true ->
         next_ok 1 w1 = true ->
         exists st2 w2,
           Admin.toggleCommandStatus st1 (Command.id c) (Command.is_active c)
             now w1
           = (Returned st2, w2)
           /\ Admin.activeCommands (Admin.stats st2) = 2%Z
           /\ Admin.totalCommands (Admin.stats st2) = 5%Z
           /\ length (Admin.commands st2) = 5.
Proof.
  intros Hlen Hoff Hok.
  pose proof (filter_split_length Command.is_active (tbl_commands w)) as Hsplit.
  rewrite (fetchData_ok st w Hok). do 2 eexists.
  split; [reflexivity |]. simpl.
  unfold len. rewrite !order_desc_count, !order_desc_length.
  assert (length (filter Command.is_active (tbl_commands w)) = 3) as Hon by lia.
  rewrite Hlen, Hon.
  split; [reflexivity |]. split; [exact Hoff |].
  split; [reflexivity |]. split; [reflexivity |].
  intros c now Hc Hact Hok1.
  rewrite (toggleCommandStatus_ok _ _ _ _ _ (next_ok_1 _ Hok1)).
  do 2 eexists. split; [reflexivity |]. simpl.
  rewrite Hact, length_map, order_desc_length. auto.
Qed.

Lemma stats_after_deactivation_witness :
  exists st1 w1,
    Admin.fetchData Admin.initial
      (Demo.world Demo.five [Demo.root; Demo.ann; Demo.bob] [])
    = (Returned st1, w1)
    /\ Admin.activeCommands (Admin.stats st1) = 3%Z
    /\ Admin.totalCommands (Admin.stats st1) = 5%Z
    /\ exists st2 w2,
         Admin.toggleCommandStatus st1 "c-2" true "2024-02-01" w1
         = (Returned st2, w2)
         /\ Admin.activeCommands (Admin.stats st2) = 2%Z
         /\ Admin.totalCommands (Admin.stats st2) = 5%Z.
Proof.
  destruct (stats_after_deactivation Admin.initial
              (Demo.world Demo.five [Demo.root; Demo.ann; Demo.bob] []))
    as [st1 [w1 [H1 [_ [_ [H2 [H3 H4]]]]]]]; try reflexivity.
  exists st1, w1. repeat (split; [assumption |]).
  destruct (H4 Demo.ping "2024-02-01") as [st2 [w2 [H5 [H6 [H7 _]]]]].
  - vm_compute in H1. injection H1 as <- _. simpl. tauto.
  - reflexivity.
  - vm_compute in H1. injection H1 as _ <-. reflexivity.
  - exists st2, w2. repeat split; assumption.
Defined.

(* ================================================================== *)
(** * Soft delete                                                      *)
(* ================================================================== *)

Lemma soft_deleted_row (c : Command.t) :
  patch_command (patch_is_active false) c = Command.with_is_active false c.
Proof. reflexivity. Qed.

(** C8: after a confirmed, successful soft delete of a command that the
    catalog lists and the store holds, no row with its id is left in the
    catalog's list or in its filtered view, none comes back from the next
    active-only fetch, and the row, now inactive, is among the commands
    the administration page fetches. *)
Theorem soft_delete_visibility (st : Commands.State) (w : World)
    (c : Command.t) :
  In c (Commands.commands st) ->
  In c (tbl_commands w) ->
  next_ok 1 w = true ->
  exists st1 w1,
    Commands.handleDeleteCommand st (Command.id c) true w = (Returned st1, w1)
    /\ (forall x, In x (Commands.commands st1) -> Command.id x <> Command.id c)
    /\ (forall x, In x (Commands.filteredCommands (Commands.filterCommands st1)) ->
                  Command.id x <> Command.id c)
    /\ (forall cst, next_ok 1 w1 = true ->
          exists cst' w2,
            Commands.fetchCommands cst w1 = (Returned cst', w2)
            /\ forall x, In x (Commands.commands cst') ->
                         Command.id x <> Command.id c)
    /\ (forall ast, next_ok 2 w1 = true ->
          exists ast' w3,
            Admin.fetchData ast w1 = (Returned ast', w3)
            /\ In (Command.with_is_active false c) (Admin.commands ast')).
Proof.
  intros Hlocal Hstore Hok.
  rewrite (handleDeleteCommand_ok _ _ _ (next_ok_1 _ Hok)).
  do 2 eexists. split; [reflexivity |].
  assert (forall x,
            In x (filter (fun cmd => negb (Command.id cmd =? Command.id c))
                         (Commands.commands st)) ->
            Command.id x <> Command.id c) as Hgone.
  { intros x Hx. apply filter_In in Hx. destruct Hx as [_ Hx].
    now destruct (String.eqb_spec (Command.id x) (Command.id c)). }
  split; [exact Hgone |]. split; [|split].
  - intros x Hx. simpl in Hx.
    rewrite filtered_as_filters in Hx.
    apply filter_In in Hx. destruct Hx as [Hx _].
    apply filter_In in Hx. destruct Hx as [Hx _].
    now apply Hgone.
  - intros cst Hok1.
    rewrite (fetchCommands_ok _ _ (next_ok_1 _ Hok1)).
    do 2 eexists. split; [reflexivity |]. simpl.
    intros x Hx. apply order_desc_In, filter_In in Hx.
    destruct Hx as [Hx Hact]. apply update_where_In in Hx.
    destruct Hx as [y [_ ->]].
    destruct (String.eqb_spec (Command.id y) (Command.id c)) as [_|Hne].
    + discriminate Hact.
    + exact Hne.
  - intros ast Hok2.
    rewrite (fetchData_ok _ _ Hok2).
    do 2 eexists. split; [reflexivity |]. simpl.
    apply order_desc_In, update_where_In. exists c.
    split; [exact Hstore |].
    now rewrite String.eqb_refl.
Qed.

Lemma soft_delete_visibility_witness :
  exists st1 w1,
    Commands.handleDeleteCommand Demo.catalog "c-2" true
      (Demo.world Demo.five [Demo.root] [])
    = (Returned st1, w1)
    /\ (forall x, In x (Commands.commands st1) -> Command.id x <> "c-2")
    /\ (exists cst' w2,
          Commands.fetchCommands Commands.initial w1 = (Returned cst', w2)
          /\ forall x, In x (Commands.commands cst') -> Command.id x <> "c-2")
    /\ (exists ast' w3,
          Admin.fetchData Admin.initial w1 = (Returned ast', w3)
          /\ In (Command.with_is_active false Demo.ping) (Admin.commands ast')).
Proof.
  destruct (soft_delete_visibility Demo.catalog
              (Demo.world Demo.five [Demo.root] []) Demo.ping)
    as [st1 [w1 [H1 [H2 [_ [H3 H4]]]]]].
  - simpl. tauto.
  - simpl. tauto.
  - reflexivity.
  - exists st1, w1. split; [exact H1 |]. split; [exact H2 |].
    assert (net w1 = []) as Hnet
      by (vm_compute in H1; injection H1 as _ <-; reflexivity).
    split.
    + apply (H3 Commands.initial). unfold next_ok. now rewrite Hnet.
    + apply (H4 Admin.initial). unfold next_ok. now rewrite Hnet.
Defined.

(* ================================================================== *)
(** * Database reset                                                   *)
(* ================================================================== *)

(** C1 as the specification states it fails in three ways, each with both
    dialogs accepted and "RESET" typed: when the delete fails every
    command row is still there; when the delete succeeds and the user
    update fails the other administrator keeps the flag; and when both
    succeed a command row whose id is the all-zero id survives. *)
Lemma reset_leaves_rows :
  tbl_commands
    (snd (Admin.resetDatabase Demo.console_ (Some Demo.operator) true true
            (Some "RESET")
            (Demo.world Demo.five [Demo.root; Demo.ann; Demo.bob] [false])))
  = Demo.five
  /\ map UserProfile.is_admin
       (tbl_users
          (snd (Admin.resetDatabase Demo.console_ (Some Demo.operator) true true
                  (Some "RESET")
                  (Demo.world Demo.five [Demo.root; Demo.ann; Demo.bob]
                              [true; false]))))
     = [true; true; false]
  /\ tbl_commands
       (snd (Admin.resetDatabase Demo.console_ (Some Demo.operator) true true
               (Some "RESET")
               (Demo.world (Demo.ghost :: Demo.five)
                           [Demo.root; Demo.ann; Demo.bob] [])))
     = [Demo.ghost].
Proof. repeat split; reflexivity. Qed.

Lemma prompt_differs_iff (typed : option string) :
  Admin.prompt_differs typed = false <-> typed = Some "RESET".
Proof.
  destruct typed as [s|]; simpl; [|split; discriminate].
  destruct (String.eqb_spec s "RESET"); simpl; split; congruence.
Qed.

Opaque Admin.fetchData.

(** The world right after the two mutations of a reset went through. *)
Lemma resetDatabase_ok (st : Admin.State) (op : AuthUser) (w : World) :
  next_ok 2 w = true ->
  Admin.resetDatabase st (Some op) true true (Some "RESET") w
  = Admin.fetchData st
      (mkWorld
         (filter (fun c => negb (negb (Command.id c =? Admin.nil_uuid)))
                 (tbl_commands w))
         (update_where (fun u => negb (UserProfile.id u =? auth_id op))
                       (patch_user (Build_UserPatch (Some false) None))
                       (tbl_users w))
         (tl (tl (net w)))
         (wire w ++ [DeleteCommands (NeqId Admin.nil_uuid);
                     UpdateUsers (Build_UserPatch (Some false) None)
                                 (NeqId (auth_id op))])
         (console w)
         (alerts w ++ ["Database reset successfully!"%string])).
Proof.
  intros Hok.
  match goal with |- _ = Admin.fetchData st ?w2 =>
    destruct (fetchData_reads_only st w2) as [s' [w' [E _]]]; rewrite E
  end.
  split_world w.
  destruct nt as [|[] [|[] nt]]; try discriminate;
    unfold Admin.resetDatabase, try_catch at 1, bind at 1; simpl;
    unfold commands_delete, users_update, round_trip, bind, check,
           ret, alert; simpl;
    rewrite <- ?app_assoc; simpl in *; now rewrite E.
Qed.

Transparent Admin.fetchData.

(** C1, amended: when both dialogs are accepted, "RESET" is typed and
    both remote calls succeed, the reset sends exactly one delete and one
    user update, after which every command row with an id other than the
    all-zero id is gone and every user except the operator has the admin
    flag cleared, the operator's row being left as it was. When a dialog
    is declined or the prompt holds anything else, nothing is sent and
    the page state and the store are unchanged. *)
Theorem reset_database :
  (forall (st : Admin.State) (op : AuthUser) (w : World),
     next_ok 2 w = true ->
     exists st' w',
       Admin.resetDatabase st (Some op) true true (Some "RESET") w
       = (Returned st', w')
       /\ (forall c, In c (tbl_commands w') ->
                     In c (tbl_commands w) /\ Command.id c = Admin.nil_uuid)
       /\ tbl_users w'
          = map (fun u => if UserProfile.id u =? auth_id op then u
                          else UserProfile.with_is_admin false u)
                (tbl_users w)
       /\ mutations w'
          = mutations w
            ++ [DeleteCommands (NeqId Admin.nil_uuid);
                UpdateUsers (Build_UserPatch (Some false) None)
                            (NeqId (auth_id op))])
  /\ (forall (st : Admin.State) (user : option AuthUser)
             (confirm1 confirm2 : bool) (typed : option string) (w : World),
        reset_declined confirm1 confirm2 typed ->
        Admin.resetDatabase st user confirm1 confirm2 typed w
        = (Returned st, w)).
Proof.
  split.
  - intros st op w Hok. rewrite (resetDatabase_ok st op w Hok).
    match goal with |- context [Admin.fetchData st ?w2] =>
      destruct (fetchData_reads_only st w2) as [st' [w' [E [Hc [Hu Hm]]]]]
    end.
    exists st', w'. split; [exact E |].
    rewrite Hc, Hu, Hm. simpl. split; [|split].
    + intros c Hin. apply filter_In in Hin. destruct Hin as [Hin Hid].
      split; [exact Hin |].
      rewrite negb_involutive in Hid. now apply String.eqb_eq.
    + apply map_ext. intros u.
      now destruct (UserProfile.id u =? auth_id op).
    + unfold mutations. simpl. now rewrite filter_app.
  - intros st user c1 c2 typed w [->|[->|Hty]].
    + reflexivity.
    + now destruct c1.
    + unfold Admin.resetDatabase.
      destruct (Admin.prompt_differs typed) eqn:Hp.
      * destruct c1, c2; reflexivity.
      * now apply prompt_differs_iff in Hp.
Qed.

Lemma reset_database_witness :
  (exists st' w',
     Admin.resetDatabase Demo.console_ (Some Demo.operator) true true
       (Some "RESET")
       (Demo.world Demo.five [Demo.root; Demo.ann; Demo.bob] [])
     = (Returned st', w')
     /\ tbl_commands w' = []
     /\ map UserProfile.is_admin (tbl_users w') = [true; false; false])
  /\ Admin.resetDatabase Demo.console_ (Some Demo.operator) true true
       (Some "reset")
       (Demo.world Demo.five [Demo.root; Demo.ann; Demo.bob] [])
     = (Returned Demo.console_,
        Demo.world Demo.five [Demo.root; Demo.ann; Demo.bob] []).
Proof.
  destruct reset_database as [Hgo Hstop]. split.
  - destruct (Hgo Demo.console_ Demo.operator
                (Demo.world Demo.five [Demo.root; Demo.ann; Demo.bob] []))
      as [st' [w' [H1 [H2 [H3 _]]]]]; [reflexivity |].
    exists st', w'. split; [exact H1 |]. split.
    + destruct (tbl_commands w') as [|c l]; [reflexivity |].
      destruct (H2 c (or_introl eq_refl)) as [Hin Hid].
      simpl in Hin. exfalso.
      repeat (destruct Hin as [<-|Hin]; [discriminate Hid |]).
      exact Hin.
    + rewrite H3. reflexivity.
  - apply Hstop. right. right. discriminate.
Defined.

(* ================================================================== *)
(** * Concrete runs                                                    *)
(* ================================================================== *)

Example includes_runs :
  includes "ping -c 4 host" "-c 4" = true
  /\ includes "ping" "" = true
  /\ includes "" "" = true
  /\ includes "ls" "ls -la" = false
  /\ toLowerCase "Disk USAGE [df]" = "disk usage [df]".
Proof. repeat split; reflexivity. Qed.

Example search_ignores_case :
  map Command.id (Commands.filtered Demo.three "DISK" "all") = ["c-3"]
  /\ map Command.id (Commands.filtered Demo.three "LS" "system") = ["c-1"]
  /\ map Command.id (Commands.filtered Demo.three "" "network") = ["c-2"].
Proof. repeat split; reflexivity. Qed.

(** A signed-in user adds a command: the new row heads the list, carries
    the user's id, and the dialog closes. *)
Example add_prepends :
  let '(r, w) :=
    Commands.handleAddCommand Demo.catalog (Some Demo.operator) Demo.form
      "c-9" "2024-03-01" (Demo.world Demo.three [Demo.root] []) in
  match r with
  | Returned st =>
      map Command.id (Commands.commands st) = ["c-9"; "c-1"; "c-2"; "c-3"]
      /\ map Command.created_by (Commands.commands st)
         = ["u-1"; "u-1"; "u-1"; "u-1"]
      /\ Commands.showAddModal st = false
      /\ length (tbl_commands w) = 4
  | Thrown _ => False
  end.
Proof. repeat split; reflexivity. Qed.

(** An update replaces the local entry by the row the store returns. *)
Example update_replaces :
  let '(r, w) :=
    Commands.handleUpdateCommand Demo.catalog "c-1" Demo.rename "2024-03-01"
      (Demo.world Demo.three [Demo.root] []) in
  match r with
  | Returned st =>
      map Command.name (Commands.commands st)
      = ["List all files"; "Ping host"; "Disk usage"]
      /\ map Command.updated_at (tbl_commands w)
         = ["2024-03-01"; "2024-01-02"; "2024-01-03"]
  | Thrown _ => False
  end.
Proof. repeat split; reflexivity. Qed.

(** A confirmed hard delete removes the row and adjusts both counts. *)
Example hard_delete_counts :
  let '(r, w) :=
    Admin.deleteCommand Demo.console_ "c-1" true
      (Demo.world Demo.five [Demo.root; Demo.ann; Demo.bob] []) in
  match r with
  | Returned st =>
      map Command.id (Admin.commands st) = ["c-2"; "c-3"; "c-4"; "c-5"]
      /\ Admin.totalCommands (Admin.stats st) = 4%Z
      /\ Admin.activeCommands (Admin.stats st) = 2%Z
      /\ map Command.id (tbl_commands w) = ["c-2"; "c-3"; "c-4"; "c-5"]
  | Thrown _ => False
  end.
Proof. repeat split; reflexivity. Qed.

(* ================================================================== *)
(** * More on the filtered view                                        *)
(* ================================================================== *)

Open Scope string_scope.

Lemma string_app_assoc (a b c : string) : (a ++ b) ++ c = a ++ (b ++ c).
Proof. induction a as [|x a IH]; simpl; [reflexivity | now rewrite IH]. Qed.

(** A text that contains [x ++ q ++ y] contains [q]. *)
Lemma includes_inner (s x q y : string) :
  includes s (x ++ q ++ y) = true -> includes s q = true.
Proof.
  rewrite !includes_iff. intros [a [b ->]].
  exists (a ++ x), (y ++ b).
  now rewrite !string_app_assoc.
Qed.

Lemma toLowerCase_truthy (q q' : string) :
  toLowerCase q = toLowerCase q' -> truthy q = truthy q'.
Proof. destruct q, q'; simpl; intros H; congruence. Qed.

Open Scope list_scope.

Lemma filter_comm {A} (p q : A -> bool) (l : list A) :
  filter p (filter q l) = filter q (filter p l).
Proof.
  induction l as [|x l IH]; simpl; [reflexivity |].
  destruct (p x) eqn:Hp, (q x) eqn:Hq; simpl; rewrite ?Hp, ?Hq, IH; reflexivity.
Qed.

Lemma filter_implied {A} (p q : A -> bool) (l : list A) :
  (forall x, p x = true -> q x = true) ->
  filter p (filter q l) = filter p l.
Proof.
  intros Himp. induction l as [|x l IH]; simpl; [reflexivity |].
  destruct (q x) eqn:Hq; simpl.
  - now rewrite IH.
  - destruct (p x) eqn:Hp; [|exact IH].
    apply Himp in Hp. congruence.
Qed.

Lemma filter_idem {A} (p : A -> bool) (l : list A) :
  filter p (filter p l) = filter p l.
Proof. now apply filter_implied. Qed.

Lemma matches_search_with_inner (lower : string -> string) (x q y : string)
    (c : Command.t) :
  lower (x ++ q ++ y)%string = (lower x ++ lower q ++ lower y)%string ->
  matches_search_with lower (x ++ q ++ y)%string c = true ->
  matches_search_with lower q c = true.
Proof.
  unfold matches_search_with. intros ->.
  rewrite !orb_true_iff.
  intros [[H|H]|H]; apply includes_inner in H; auto.
Qed.

(** Typing on: when lower-casing the longer query lower-cases its pieces
    one by one (as the builtin does for ASCII queries), a query that
    contains the previous one filters the previous view, and nothing that
    was hidden comes back. [lower] stands for the builtin. *)
Theorem longer_query_narrows (lower : string -> string)
    (L : list Command.t) (x Q y C : string) :
  lower (x ++ Q ++ y)%string = (lower x ++ lower Q ++ lower y)%string ->
  filtered_with lower L (x ++ Q ++ y)%string C
  = filtered_with lower (filtered_with lower L Q C) (x ++ Q ++ y)%string C
  /\ incl (filtered_with lower L (x ++ Q ++ y)%string C)
          (filtered_with lower L Q C).
Proof.
  intros Hdist.
  assert (filtered_with lower L (x ++ Q ++ y)%string C
          = filtered_with lower (filtered_with lower L Q C)
                          (x ++ Q ++ y)%string C) as Heq.
  { rewrite !filtered_with_as_filters.
    destruct (truthy (x ++ Q ++ y)%string) eqn:T2.
    - rewrite (filter_comm (matches_search_with lower (x ++ Q ++ y)%string)
                           (spec_category_ok C)).
      rewrite filter_idem. f_equal.
      destruct (truthy Q); [|reflexivity].
      symmetry. apply filter_implied.
      intros c. now apply matches_search_with_inner.
    - apply truthy_false_iff in T2.
      assert (Q = ""%string) as ->
        by (destruct x; [destruct Q; [reflexivity | discriminate]
                        | discriminate]).
      simpl. now rewrite filter_idem. }
  split; [exact Heq |].
  intros c Hc. rewrite Heq in Hc.
  rewrite filtered_with_as_filters in Hc.
  apply filter_In in Hc. destruct Hc as [Hc _].
  destruct (truthy (x ++ Q ++ y)%string); [apply filter_In in Hc|]; tauto.
Qed.

Lemma longer_query_narrows_witness :
  Commands.filtered Demo.three "Disk" "system"
  = Commands.filtered (Commands.filtered Demo.three "is" "system")
                      "Disk" "system"
  /\ incl (Commands.filtered Demo.three "Disk" "system")
          (Commands.filtered Demo.three "is" "system").
Proof.
  apply (longer_query_narrows toLowerCase Demo.three "D" "is" "k" "system").
  reflexivity.
Defined.

(** The view depends on the query only up to the case of its letters. *)
Theorem query_case_is_ignored (L : list Command.t) (Q Q' C : string) :
  toLowerCase Q = toLowerCase Q' ->
  Commands.filtered L Q C = Commands.filtered L Q' C.
Proof.
  intros H. unfold Commands.filtered.
  rewrite (toLowerCase_truthy _ _ H).
  replace (Commands.matches_search Q) with (Commands.matches_search Q');
    [reflexivity |].
  unfold Commands.matches_search. now rewrite H.
Qed.

Lemma query_case_is_ignored_witness :
  Commands.filtered Demo.three "DiSk" "system"
  = Commands.filtered Demo.three "disk" "system".
Proof. apply query_case_is_ignored. reflexivity. Defined.

(* ================================================================== *)
(** * Adding a command                                                 *)
(* ================================================================== *)

Lemma handleAddCommand_ok (st : Commands.State) (user : AuthUser)
    (commandData : CommandData) (srv_id srv_now : string) (w : World) :
  next_fails w = false ->
  let row := inserted_row (Build_CommandInsert commandData (auth_id user))
                          srv_id srv_now in
  Commands.handleAddCommand st (Some user) commandData srv_id srv_now w =
  (Returned
     (Commands.setShowAddModal false
        (Commands.setCommands (row :: Commands.commands st) st)),
   mkWorld (tbl_commands w ++ [row]) (tbl_users w) (tl (net w))
     (wire w ++ [InsertCommand (Build_CommandInsert commandData (auth_id user))])
     (console w) (alerts w)).
Proof.
  intros H. split_world w. destruct nt as [|[] nt]; try discriminate;
    reflexivity.
Qed.

Lemma filtered_cons (c : Command.t) (L : list Command.t) (Q C : string) :
  Commands.filtered (c :: L) Q C
  = (if Commands.matches_search Q c && spec_category_ok C c then [c] else [])
    ++ Commands.filtered L Q C.
Proof.
  rewrite !filtered_as_filters. simpl.
  destruct (Commands.matches_search Q c); simpl; [|reflexivity].
  now destruct (spec_category_ok C c).
Qed.

(** A signed-in user's successful add: the row the store made carries
    the user's id as creator and the form's fields, it is appended to the
    table and put at the head of the local list, the add dialog closes,
    the card of the new row shows its edit and delete buttons to that
    user, and the view gains the row at its head exactly when the row
    passes the current query and category. *)
Theorem add_attaches_creator (st : Commands.State) (user : AuthUser)
    (commandData : CommandData) (srv_id srv_now : string) (w : World) :
  next_fails w = false ->
  exists st' w' row,
    Commands.handleAddCommand st (Some user) commandData srv_id srv_now w
    = (Returned st', w')
    /\ Command.created_by row = auth_id user
    /\ Command.id row = srv_id
    /\ CommandModal.loadFormData (Some row) = commandData
    /\ Commands.commands st' = row :: Commands.commands st
    /\ tbl_commands w' = tbl_commands w ++ [row]
    /\ Commands.showAddModal st' = false
    /\ (forall isAdmin,
          CommandsRender.showsControls isAdmin (Some user) row = true)
    /\ Commands.filteredCommands (Commands.filterCommands st')
       = (if Commands.matches_search (Commands.searchTerm st) row
             && spec_category_ok (Commands.selectedCategory st) row
          then [row] else [])
         ++ Commands.filteredCommands (Commands.filterCommands st).
Proof.
  intros H. rewrite (handleAddCommand_ok st user commandData srv_id srv_now w H).
  do 2 eexists.
  exists (inserted_row (Build_CommandInsert commandData (auth_id user))
                       srv_id srv_now).
  split; [reflexivity |]. simpl.
  split; [reflexivity |]. split; [reflexivity |].
  split; [now destruct commandData |].
  split; [reflexivity |]. split; [reflexivity |]. split; [reflexivity |].
  split.
  - intros isAdmin. unfold CommandsRender.showsControls. simpl.
    rewrite String.eqb_refl. apply orb_true_r.
  - apply filtered_cons.
Qed.

Lemma add_attaches_creator_witness :
  exists st' w' row,
    Commands.handleAddCommand Demo.catalog (Some Demo.operator) Demo.form
      "c-9" "2024-03-01" (Demo.world Demo.three [Demo.root] [])
    = (Returned st', w')
    /\ Command.created_by row = "u-1"
    /\ Commands.commands st' = row :: Demo.three
    /\ Commands.showAddModal st' = false.
Proof.
  destruct (add_attaches_creator Demo.catalog Demo.operator Demo.form
              "c-9" "2024-03-01" (Demo.world Demo.three [Demo.root] []))
    as [st' [w' [row [H1 [H2 [_ [_ [H3 [_ [H4 _]]]]]]]]]]; [reflexivity |].
  exists st', w', row. repeat split; assumption.
Defined.

(* ================================================================== *)
(** * Errors stay inside the handlers                                  *)
(* ================================================================== *)

Lemma try_catch_returns {S} (body : Io S) (handler : Error -> Io S) (w : World) :
  (forall e w', returns (handler e w')) -> returns (try_catch body handler w).
Proof.
  intros H. unfold try_catch.
  destruct (body w) as [[a|e] w']; [now exists a | apply H].
Qed.

Lemma bind_returns {S T} (c : Io S) (k : S -> Io T) (w : World) :
  returns (c w) -> (forall a w', returns (k a w')) -> returns (bind c k w).
Proof.
  intros [a Ha] H. unfold bind.
  destruct (c w) as [[a'|e] w']; simpl in Ha; [apply H | discriminate].
Qed.

Lemma log_and_keep_returns {S} (msg : string) (st : S) (w : World) :
  returns ((_ <- console_error msg ;; ret st) w).
Proof. now exists st. Qed.

Lemma fetchData_returns (st : Admin.State) (w : World) :
  returns (Admin.fetchData st w).
Proof.
  destruct (fetchData_reads_only st w) as [st' [w' [E _]]].
  exists st'. now rewrite E.
Qed.

(** No handler of either page lets an exception out: whatever the
    arguments, the answers to the dialogs and the outcomes of the round
    trips, each one comes back with a page state. *)
Theorem handlers_never_throw (w : World) :
  (forall st, returns (Commands.fetchCommands st w))
  /\ (forall st user data srv_id srv_now,
        returns (Commands.handleAddCommand st user data srv_id srv_now w))
  /\ (forall st id updates now,
        returns (Commands.handleUpdateCommand st id updates now w))
  /\ (forall st id confirmed,
        returns (Commands.handleDeleteCommand st id confirmed w))
  /\ (forall st user data srv_id srv_now now,
        returns (CommandsRender.onSubmit st user data srv_id srv_now now w))
  /\ (forall st, returns (Admin.fetchData st w))
  /\ (forall st userId isAdmin now,
        returns (Admin.toggleUserAdmin st userId isAdmin now w))
  /\ (forall st commandId confirmed,
        returns (Admin.deleteCommand st commandId confirmed w))
  /\ (forall st commandId isActive now,
        returns (Admin.toggleCommandStatus st commandId isActive now w))
  /\ (forall st user confirm1 confirm2 typed,
        returns (Admin.resetDatabase st user confirm1 confirm2 typed w)).
Proof.
  assert (forall st user data srv_id srv_now,
            returns (Commands.handleAddCommand st user data srv_id srv_now w))
    as Hadd.
  { intros st [user|] data srv_id srv_now; simpl; [|now exists st].
    apply try_catch_returns. intros. apply log_and_keep_returns. }
  assert (forall st id updates now,
            returns (Commands.handleUpdateCommand st id updates now w))
    as Hupd.
  { intros. apply try_catch_returns. intros. apply log_and_keep_returns. }
  repeat split.
  - intros st. unfold Commands.fetchCommands. apply bind_returns.
    + apply try_catch_returns. intros. apply log_and_keep_returns.
    + intros a w'. now exists (Commands.setLoading false a).
  - exact Hadd.
  - exact Hupd.
  - intros st id [|]; simpl; [|now exists st].
    apply try_catch_returns. intros. apply log_and_keep_returns.
  - intros st user data srv_id srv_now now. unfold CommandsRender.onSubmit.
    destruct (Commands.editingCommand st); [apply Hupd | apply Hadd].
  - intros st. apply fetchData_returns.
  - intros. apply try_catch_returns. intros. apply log_and_keep_returns.
  - intros st commandId [|]; simpl; [|now exists st].
    apply try_catch_returns. intros. apply log_and_keep_returns.
  - intros. apply try_catch_returns. intros. apply log_and_keep_returns.
  - intros st user c1 c2 typed. unfold Admin.resetDatabase.
    destruct (negb c1); [now exists st |].
    destruct (negb c2 || Admin.prompt_differs typed); [now exists st |].
    apply try_catch_returns. intros. now exists st.
Qed.

(** A failed insert, a failed soft delete and a failed hard delete are
    caught and logged and leave the page state and both tables as they
    were; a declined delete does nothing at all. *)
Theorem failed_add_or_delete_keeps_state :
  (forall st user data srv_id srv_now w,
     next_fails w = true ->
     swallowed st "Error adding command:" w
       (Commands.handleAddCommand st (Some user) data srv_id srv_now w))
  /\ (forall st id w,
        next_fails w = true ->
        swallowed st "Error deleting command:" w
          (Commands.handleDeleteCommand st id true w))
  /\ (forall st commandId w,
        next_fails w = true ->
        swallowed st "Error deleting command:" w
          (Admin.deleteCommand st commandId true w))
  /\ (forall st id w,
        Commands.handleDeleteCommand st id false w = (Returned st, w))
  /\ (forall st commandId w,
        Admin.deleteCommand st commandId false w = (Returned st, w)).
Proof.
  repeat split; try reflexivity; intros; split_world w;
    destruct nt as [|[] nt]; try discriminate; reflexivity.
Qed.

Lemma failed_add_or_delete_keeps_state_witness :
  swallowed Demo.catalog "Error adding command:"
    (Demo.world Demo.three [Demo.root] [false])
    (Commands.handleAddCommand Demo.catalog (Some Demo.operator) Demo.form
       "c-9" "2024-03-01" (Demo.world Demo.three [Demo.root] [false]))
  /\ swallowed Demo.catalog "Error deleting command:"
       (Demo.world Demo.three [Demo.root] [false])
       (Commands.handleDeleteCommand Demo.catalog "c-1" true
          (Demo.world Demo.three [Demo.root] [false]))
  /\ swallowed Demo.console_ "Error deleting command:"
       (Demo.world Demo.five [Demo.root] [false])
       (Admin.deleteCommand Demo.console_ "c-1" true
          (Demo.world Demo.five [Demo.root] [false])).
Proof.
  destruct failed_add_or_delete_keeps_state as [Hadd [Hsoft [Hhard _]]].
  split; [|split].
  - apply Hadd. reflexivity.
  - apply Hsoft. reflexivity.
  - apply Hhard. reflexivity.
Defined.

(* ================================================================== *)
(** * Requests on the wire                                             *)
(* ================================================================== *)

(** No handler asks twice: whether the query it awaits succeeds or
    fails, each action awaits exactly one query of the store client, and
    the administration fetch awaits the commands query only after the
    users query succeeded. [wire] lists the queries the handlers await;
    what the client library sends over the network for one query is not
    part of the pages. *)
Theorem one_query_per_action (w : World) :
  (forall st,
     wire (snd (Commands.fetchCommands st w)) = wire w ++ [SelectCommands true])
  /\ (forall st user data srv_id srv_now,
        wire (snd (Commands.handleAddCommand st (Some user) data srv_id srv_now w))
        = wire w ++ [InsertCommand (Build_CommandInsert data (auth_id user))])
  /\ (forall st id updates now,
        wire (snd (Commands.handleUpdateCommand st id updates now w))
        = wire w ++ [UpdateCommands (stamp now updates) (EqId id) true])
  /\ (forall st id,
        wire (snd (Commands.handleDeleteCommand st id true w))
        = wire w ++ [UpdateCommands (patch_is_active false) (EqId id) false])
  /\ (forall st userId isAdmin now,
        wire (snd (Admin.toggleUserAdmin st userId isAdmin now w))
        = wire w ++ [UpdateUsers
                       (Build_UserPatch (Some (negb isAdmin)) (Some now))
                       (EqId userId)])
  /\ (forall st commandId,
        wire (snd (Admin.deleteCommand st commandId true w))
        = wire w ++ [DeleteCommands (EqId commandId)])
  /\ (forall st commandId isActive now,
        wire (snd (Admin.toggleCommandStatus st commandId isActive now w))
        = wire w ++ [UpdateCommands
                       (stamp now (patch_is_active (negb isActive)))
                       (EqId commandId) false])
  /\ (forall st,
        wire (snd (Admin.fetchData st w))
        = wire w ++ (if next_fails w then [SelectUsers]
                     else [SelectUsers; SelectCommands false])).
Proof.
  split_world w.
  repeat match goal with |- _ /\ _ => split end; intros.
  - destruct nt as [|[] nt]; reflexivity.
  - destruct nt as [|[] nt]; reflexivity.
  - unfold Commands.handleUpdateCommand. run_io.
    destruct nt as [|[] nt]; try reflexivity;
      destruct (filter _ cs) as [|c [|c' l]]; reflexivity.
  - destruct nt as [|[] nt]; reflexivity.
  - destruct nt as [|[] nt]; reflexivity.
  - destruct nt as [|[] nt]; reflexivity.
  - destruct nt as [|[] nt]; reflexivity.
  - destruct nt as [|[] [|[] nt]]; unfold Admin.fetchData; run_io;
      rewrite <- ?app_assoc; reflexivity.
Qed.

(* ================================================================== *)
(** * Fetching                                                         *)
(* ================================================================== *)

Lemma leb_trans (a b c : string) :
  String.leb a b = true -> String.leb b c = true -> String.leb a c = true.
Proof.
  unfold String.leb.
  destruct (String.compare a b) eqn:Hab; try discriminate; intros _.
  - apply OrderedTypeEx.String_as_OT.cmp_eq in Hab. now subst.
  - destruct (String.compare b c) eqn:Hbc; try discriminate; intros _.
    + apply OrderedTypeEx.String_as_OT.cmp_eq in Hbc. subst. now rewrite Hab.
    + apply OrderedTypeEx.String_as_OT.cmp_lt in Hab, Hbc.
      pose proof (OrderedTypeEx.String_as_OT.lt_trans _ _ _ Hab Hbc) as Hac.
      apply OrderedTypeEx.String_as_OT.cmp_lt in Hac.
      unfold OrderedTypeEx.String_as_OT.cmp in Hac. now rewrite Hac.
Qed.

Lemma insert_desc_newest_first (x : Command.t) (l : list Command.t) :
  newest_first l -> newest_first (insert_desc Command.created_at x l).
Proof.
  induction l as [|y l IH]; simpl.
  - intros _. split; [intros ? [] | exact I].
  - intros [Hy Hl].
    destruct (String.leb (Command.created_at y) (Command.created_at x)) eqn:E.
    + simpl. split; [|split; assumption].
      intros z [<-|Hz]; [exact E |].
      unfold not_older in *. eapply leb_trans; [apply Hy, Hz | exact E].
    + simpl. split; [|now apply IH].
      intros z Hz.
      apply (Permutation_in _ (insert_desc_perm Command.created_at x l)) in Hz.
      destruct Hz as [<-|Hz]; [|now apply Hy].
      unfold not_older.
      destruct (String.leb_total (Command.created_at x) (Command.created_at y));
        congruence.
Qed.

Lemma order_desc_newest_first (l : list Command.t) :
  newest_first (order_desc Command.created_at l).
Proof.
  induction l as [|x l IH]; simpl; [exact I |].
  now apply insert_desc_newest_first.
Qed.

Lemma skipn_In {A} (n : nat) (l : list A) (x : A) :
  In x (skipn n l) -> In x l.
Proof.
  revert l. induction n as [|n IH]; intros [|y l]; simpl; auto.
Qed.

Lemma newest_first_split (n : nat) (l : list Command.t) :
  newest_first l ->
  forall a b, In a (firstn n l) -> In b (skipn n l) -> not_older a b.
Proof.
  revert l. induction n as [|n IH]; intros l Hl a b Ha Hb; [destruct Ha |].
  destruct l as [|x l]; [destruct Ha |].
  simpl in *. destruct Hl as [Hx Hl]. destruct Ha as [<-|Ha].
  - apply Hx. eapply skipn_In; eassumption.
  - now apply (IH l).
Qed.

(** The catalog's fetch. It always clears the spinner and never writes.
    When the round trip succeeds the list becomes the active rows of the
    store, each as often as the store has it, newest first; when it fails
    the list is kept and the error is logged. *)
Theorem fetchCommands_lists_active_rows (st : Commands.State) (w : World) :
  exists st' w',
    Commands.fetchCommands st w = (Returned st', w')
    /\ Commands.loading st' = false
    /\ tbl_commands w' = tbl_commands w
    /\ tbl_users w' = tbl_users w
    /\ (next_fails w = false ->
        Permutation (Commands.commands st')
                    (filter Command.is_active (tbl_commands w))
        /\ newest_first (Commands.commands st')
        /\ (forall c, In c (Commands.commands st') -> Command.is_active c = true)
        /\ console w' = console w)
    /\ (next_fails w = true ->
        Commands.commands st' = Commands.commands st
        /\ console w' = console w ++ ["Error fetching commands:"%string]).
Proof.
  destruct (next_fails w) eqn:E.
  - split_world w. destruct nt as [|[] nt]; try discriminate.
    do 2 eexists. split; [reflexivity |]. simpl.
    repeat (split; [reflexivity |]).
    split; [discriminate | auto].
  - rewrite (fetchCommands_ok st w E).
    do 2 eexists. split; [reflexivity |]. simpl.
    repeat (split; [reflexivity |]).
    split; [|discriminate]. intros _.
    split; [apply order_desc_perm |].
    split; [apply order_desc_newest_first |].
    split; [|reflexivity].
    intros c Hc. apply order_desc_In, filter_In in Hc. tauto.
Qed.

Lemma fetchCommands_lists_active_rows_witness :
  (exists st' w',
     Commands.fetchCommands Commands.initial
       (Demo.world Demo.five [Demo.root] [])
     = (Returned st', w')
     /\ Permutation (Commands.commands st') [Demo.ls; Demo.ping; Demo.df]
     /\ newest_first (Commands.commands st'))
  /\ (exists st' w',
        Commands.fetchCommands Demo.catalog
          (Demo.world Demo.five [Demo.root] [false])
        = (Returned st', w')
        /\ Commands.commands st' = Demo.three).
Proof.
  split.
  - destruct (fetchCommands_lists_active_rows Commands.initial
                (Demo.world Demo.five [Demo.root] []))
      as [st' [w' [H1 [_ [_ [_ [H2 _]]]]]]].
    destruct (H2 eq_refl) as [H3 [H4 _]].
    exists st', w'. split; [exact H1 |]. split; [exact H3 | exact H4].
  - destruct (fetchCommands_lists_active_rows Demo.catalog
                (Demo.world Demo.five [Demo.root] [false]))
      as [st' [w' [H1 [_ [_ [_ [_ H2]]]]]]].
    destruct (H2 eq_refl) as [H3 _].
    exists st', w'. split; [exact H1 | exact H3].
Defined.

(** The administration fetch is all or nothing for the page: when the
    users round trip or the commands round trip fails, the lists, the
    counts and the tab are those from before (the users that did arrive
    are dropped), the error is logged once, and the spinner is cleared.
    It never writes to a table. *)
Theorem fetchData_all_or_nothing (st : Admin.State) (w : World) :
  next_ok 2 w = false ->
  exists w',
    Admin.fetchData st w = (Returned (Admin.setLoading false st), w')
    /\ tbl_commands w' = tbl_commands w
    /\ tbl_users w' = tbl_users w
    /\ console w' = console w ++ ["Error fetching admin data:"%string].
Proof.
  intros H. split_world w.
  destruct nt as [|[] [|[] nt]]; try discriminate;
    unfold Admin.fetchData; run_io; eexists; repeat split.
Qed.

Lemma fetchData_all_or_nothing_witness :
  exists w',
    Admin.fetchData Demo.console_
      (Demo.world [] [Demo.root] [true; false])
    = (Returned Demo.console_, w')
    /\ tbl_users w' = [Demo.root].
Proof.
  destruct (fetchData_all_or_nothing Demo.console_
              (Demo.world [] [Demo.root] [true; false]))
    as [w' [H1 [_ [H2 _]]]]; [reflexivity |].
  exists w'. split; [exact H1 | exact H2].
Defined.

(** After a successful administration fetch all four counts are those of
    the fetched lists, the commands are newest first, and "Recent
    Activity" shows at most five of them, each at least as recent as any
    command it leaves out. *)
Theorem fetched_console_is_consistent (st : Admin.State) (w : World) :
  next_ok 2 w = true ->
  exists st' w',
    Admin.fetchData st w = (Returned st', w')
    /\ command_counts_agree st'
    /\ user_counts_agree st'
    /\ Permutation (Admin.commands st') (tbl_commands w)
    /\ Permutation (Admin.users st') (tbl_users w)
    /\ newest_first (Admin.commands st')
    /\ length (AdminRender.recentActivity st') = Nat.min 5 (length (tbl_commands w))
    /\ (forall a b,
          In a (AdminRender.recentActivity st') ->
          In b (Admin.commands st') ->
          ~ In b (AdminRender.recentActivity st') ->
          not_older a b).
Proof.
  intros H. rewrite (fetchData_ok st w H).
  do 2 eexists. split; [reflexivity |].
  unfold command_counts_agree, user_counts_agree, AdminRender.recentActivity.
  cbn [Admin.commands Admin.users Admin.stats Admin.totalCommands
       Admin.activeCommands Admin.totalUsers Admin.adminUsers].
  split; [split; reflexivity |]. split; [split; reflexivity |].
  split; [apply order_desc_perm |]. split; [apply order_desc_perm |].
  split; [apply order_desc_newest_first |].
  split; [now rewrite length_firstn, order_desc_length |].
  intros a b Ha Hb Hnb.
  apply (newest_first_split 5 _ (order_desc_newest_first (tbl_commands w)));
    [exact Ha |].
  rewrite <- (firstn_skipn 5 (order_desc Command.created_at (tbl_commands w)))
    in Hb.
  apply in_app_or in Hb. tauto.
Qed.

Lemma fetched_console_is_consistent_witness :
  exists st' w',
    Admin.fetchData Admin.initial
      (Demo.world (Demo.ghost :: Demo.five) [Demo.root; Demo.bob] [])
    = (Returned st', w')
    /\ command_counts_agree st'
    /\ user_counts_agree st'
    /\ length (AdminRender.recentActivity st') = 5.
Proof.
  destruct (fetched_console_is_consistent Admin.initial
              (Demo.world (Demo.ghost :: Demo.five) [Demo.root; Demo.bob] []))
    as [st' [w' [H1 [H2 [H3 [_ [_ [_ [H4 _]]]]]]]]]; [reflexivity |].
  exists st', w'. repeat (split; [assumption |]). exact H4.
Defined.

(* ================================================================== *)
(** * Deleting                                                         *)
(* ================================================================== *)

Lemma deleteCommand_ok (st : Admin.State) (commandId : string) (w : World) :
  next_fails w = false ->
  Admin.deleteCommand st commandId true w =
  (Returned
     (Admin.setStats
        (fun prev =>
           Admin.mkStats (Admin.totalUsers prev)
             (Admin.totalCommands prev - 1)
             (Admin.activeCommands prev
              - (if match find_first (fun cmd => Command.id cmd =? commandId)
                                     (Admin.commands st) with
                    | Some cmd => Command.is_active cmd
                    | None => false
                    end
                 then 1 else 0))
             (Admin.adminUsers prev))
        (Admin.setCommands
           (filter (fun cmd => negb (Command.id cmd =? commandId))
                   (Admin.commands st))
           st)),
   mkWorld
     (filter (fun c => negb (Command.id c =? commandId)) (tbl_commands w))
     (tbl_users w) (tl (net w))
     (wire w ++ [DeleteCommands (EqId commandId)])
     (console w) (alerts w)).
Proof.
  intros H. split_world w. destruct nt as [|[] nt]; try discriminate;
    reflexivity.
Qed.

Lemma filter_other_ids (commandId : string) (l : list Command.t) (x : Command.t) :
  In x (filter (fun c => negb (Command.id c =? commandId)) l) <->
  In x l /\ Command.id x <> commandId.
Proof.
  rewrite filter_In.
  destruct (String.eqb_spec (Command.id x) commandId); simpl;
    intuition congruence.
Qed.

(** A confirmed, successful hard delete removes the command from every
    view: no row with its id is left in the administration list or in the
    store, every other row of both is kept, and neither the next catalog
    fetch nor the next administration fetch brings it back. *)
Theorem hard_delete_removes_everywhere (st : Admin.State) (commandId : string)
    (w : World) :
  next_ok 1 w = true ->
  exists st1 w1,
    Admin.deleteCommand st commandId true w = (Returned st1, w1)
    /\ (forall x, In x (Admin.commands st1) <->
                  In x (Admin.commands st) /\ Command.id x <> commandId)
    /\ (forall x, In x (tbl_commands w1) <->
                  In x (tbl_commands w) /\ Command.id x <> commandId)
    /\ tbl_users w1 = tbl_users w
    /\ (forall cst, next_ok 1 w1 = true ->
          exists cst' w2,
            Commands.fetchCommands cst w1 = (Returned cst', w2)
            /\ forall x, In x (Commands.commands cst') ->
                         Command.id x <> commandId)
    /\ (forall ast, next_ok 2 w1 = true ->
          exists ast' w3,
            Admin.fetchData ast w1 = (Returned ast', w3)
            /\ forall x, In x (Admin.commands ast') ->
                         Command.id x <> commandId).
Proof.
  intros Hok. rewrite (deleteCommand_ok _ _ _ (next_ok_1 _ Hok)).
  do 2 eexists. split; [reflexivity |].
  cbn [Admin.commands Admin.setStats Admin.setCommands tbl_commands tbl_users].
  split; [intros x; apply filter_other_ids |].
  split; [intros x; apply filter_other_ids |].
  split; [reflexivity |]. split.
  - intros cst Hok1. rewrite (fetchCommands_ok _ _ (next_ok_1 _ Hok1)).
    do 2 eexists. split; [reflexivity |]. simpl.
    intros x Hx. apply order_desc_In, filter_In in Hx.
    destruct Hx as [Hx _]. now apply filter_other_ids in Hx.
  - intros ast Hok2. rewrite (fetchData_ok _ _ Hok2).
    do 2 eexists. split; [reflexivity |]. simpl.
    intros x Hx. apply order_desc_In in Hx.
    now apply filter_other_ids in Hx.
Qed.

Lemma hard_delete_removes_everywhere_witness :
  exists st1 w1,
    Admin.deleteCommand Demo.console_ "c-2" true
      (Demo.world Demo.five [Demo.root] [])
    = (Returned st1, w1)
    /\ ~ In Demo.ping (tbl_commands w1)
    /\ In Demo.ls (tbl_commands w1)
    /\ exists cst' w2,
         Commands.fetchCommands Demo.catalog w1 = (Returned cst', w2)
         /\ forall x, In x (Commands.commands cst') -> Command.id x <> "c-2".
Proof.
  destruct (hard_delete_removes_everywhere Demo.console_ "c-2"
              (Demo.world Demo.five [Demo.root] []))
    as [st1 [w1 [H1 [_ [H2 [_ [H3 _]]]]]]]; [reflexivity |].
  exists st1, w1. split; [exact H1 |]. split; [|split].
  - intros Hin. apply H2 in Hin. now destruct Hin as [_ Hne].
  - apply H2. split; [simpl; tauto | discriminate].
  - apply (H3 Demo.catalog).
    vm_compute in H1. injection H1 as _ <-. reflexivity.
Defined.

Lemma Forall2_update_where {A} (R : A -> A -> Prop) (sel : A -> bool)
    (f : A -> A) (l : list A) :
  (forall x, R x x) -> (forall x, sel x = true -> R x (f x)) ->
  Forall2 R l (update_where sel f l).
Proof.
  intros Hrefl Hf. induction l as [|x l IH]; simpl; constructor; auto.
  destruct (sel x) eqn:E; auto.
Qed.

Lemma Forall2_same {A} (R : A -> A -> Prop) (l : list A) :
  (forall x, R x x) -> Forall2 R l l.
Proof. intros H. induction l; constructor; auto. Qed.

(** Whatever the answer to the dialog and the outcome of the round trip,
    the catalog's delete is soft: the store keeps every row in place,
    each changed at most in [is_active], rows with another id are not
    changed at all, no row is turned active, and the users table is not
    written. *)
Theorem soft_delete_only_clears_flag :
  forall (st : Commands.State) (id : string) (confirmed : bool) (w : World),
    let w' := snd (Commands.handleDeleteCommand st id confirmed w) in
    Forall2 (fun a b =>
               same_but_is_active a b
               /\ (Command.id a <> id -> b = a)
               /\ (Command.is_active b = true -> b = a))
            (tbl_commands w) (tbl_commands w')
    /\ tbl_users w' = tbl_users w.
Proof.
  intros st id confirmed w.
  assert (forall a : Command.t,
            same_but_is_active a a
            /\ (Command.id a <> id -> a = a)
            /\ (Command.is_active a = true -> a = a)) as Hrefl
    by (intros a; repeat split).
  destruct confirmed; [|simpl; split; [now apply Forall2_same | reflexivity]].
  split_world w. destruct nt as [|[] nt]; simpl;
    (split; [|reflexivity]);
    try (now apply Forall2_same);
    apply Forall2_update_where; auto;
    intros x Hx; apply String.eqb_eq in Hx;
    (split; [reflexivity |]); (split; [congruence | discriminate]).
Qed.

(** After a confirmed, successful soft delete the view is the previous
    view without the cards of that id, the others in their order; the
    query, the category and the dialogs are as before. *)
Theorem soft_delete_updates_view (st : Commands.State) (id : string)
    (w : World) :
  next_fails w = false ->
  exists st1 w1,
    Commands.handleDeleteCommand st id true w = (Returned st1, w1)
    /\ Commands.filteredCommands (Commands.filterCommands st1)
       = filter (fun cmd => negb (Command.id cmd =? id))
                (Commands.filteredCommands (Commands.filterCommands st))
    /\ Commands.searchTerm st1 = Commands.searchTerm st
    /\ Commands.selectedCategory st1 = Commands.selectedCategory st
    /\ CommandsRender.isOpen st1 = CommandsRender.isOpen st.
Proof.
  intros H. rewrite (handleDeleteCommand_ok st id w H).
  do 2 eexists. split; [reflexivity |]. simpl.
  split; [|repeat split].
  rewrite !filtered_as_filters.
  rewrite (filter_comm (Commands.matches_search (Commands.searchTerm st))).
  rewrite (filter_comm (spec_category_ok (Commands.selectedCategory st))).
  reflexivity.
Qed.

Lemma soft_delete_updates_view_witness :
  exists st1 w1,
    Commands.handleDeleteCommand Demo.catalog "c-2" true
      (Demo.world Demo.three [Demo.root] [])
    = (Returned st1, w1)
    /\ Commands.filteredCommands (Commands.filterCommands st1)
       = [Demo.ls; Demo.df].
Proof.
  destruct (soft_delete_updates_view Demo.catalog "c-2"
              (Demo.world Demo.three [Demo.root] []))
    as [st1 [w1 [H1 [H2 _]]]]; [reflexivity |].
  exists st1, w1. split; [exact H1 |]. rewrite H2. reflexivity.
Defined.

(* ================================================================== *)
(** * Command status and the counts                                    *)
(* ================================================================== *)

Lemma with_is_active_id (b : bool) (c : Command.t) :
  Command.id (Command.with_is_active b c) = Command.id c.
Proof. reflexivity. Qed.

#[local] Arguments Z.of_nat : simpl never.
#[local] Arguments Z.add : simpl never.
#[local] Arguments Z.sub : simpl never.

(** Flipping the row of a unique id moves the number of active rows by
    one, and removing it takes away its share. *)
Lemma count_after_flip (l : list Command.t) (c : Command.t) :
  NoDup (map Command.id l) -> In c l ->
  let l' := map (fun cmd => if Command.id cmd =? Command.id c
                            then Command.with_is_active
                                   (negb (Command.is_active c)) cmd
                            else cmd) l in
  len (filter Command.is_active l')
  = (len (filter Command.is_active l)
     + (if Command.is_active c then -1 else 1))%Z
  /\ map Command.id l' = map Command.id l.
Proof.
  unfold len. induction l as [|x l IH]; simpl; [tauto |].
  intros Hnd Hin. inversion Hnd as [|? ? Hx Hl]; subst.
  destruct (String.eqb_spec (Command.id x) (Command.id c)) as [He|Hne].
  - assert (x = c) as ->.
    { apply (unique_key Command.id (x :: l)); simpl; auto. }
    assert (map (fun cmd => if Command.id cmd =? Command.id c
                            then Command.with_is_active
                                   (negb (Command.is_active c)) cmd
                            else cmd) l = l) as ->.
    { rewrite <- (map_id l) at 2. apply map_ext_in. intros a Ha.
      destruct (String.eqb_spec (Command.id a) (Command.id c)) as [E|_];
        [|reflexivity].
      elim Hx. rewrite <- E. now apply in_map. }
    split; [|reflexivity]. simpl.
    destruct (Command.is_active c); simpl; lia.
  - destruct Hin as [->|Hin]; [now elim Hne |].
    destruct (IH Hl Hin) as [IH1 IH2]. simpl in IH1, IH2.
    split; [|now rewrite IH2].
    destruct (Command.is_active x); simpl; lia.
Qed.

Lemma count_after_removal (l : list Command.t) (c : Command.t) :
  NoDup (map Command.id l) -> In c l ->
  let l' := filter (fun cmd => negb (Command.id cmd =? Command.id c)) l in
  len l' = (len l - 1)%Z
  /\ len (filter Command.is_active l')
     = (len (filter Command.is_active l)
        - (if Command.is_active c then 1 else 0))%Z
  /\ find_first (fun cmd => Command.id cmd =? Command.id c) l = Some c
  /\ NoDup (map Command.id l').
Proof.
  unfold len, find_first. induction l as [|x l IH]; simpl; [tauto |].
  intros Hnd Hin. inversion Hnd as [|? ? Hx Hl]; subst.
  destruct (String.eqb_spec (Command.id x) (Command.id c)) as [He|Hne]; simpl.
  - assert (x = c) as ->.
    { apply (unique_key Command.id (x :: l)); simpl; auto. }
    assert (filter (fun cmd => negb (Command.id cmd =? Command.id c)) l = l)
      as ->.
    { apply forallb_filter_id, forallb_forall. intros a Ha.
      destruct (String.eqb_spec (Command.id a) (Command.id c)) as [E|_];
        [|reflexivity].
      elim Hx. rewrite <- E. now apply in_map. }
    repeat split; try assumption; destruct (Command.is_active c); simpl; lia.
  - destruct Hin as [->|Hin]; [now elim Hne |].
    destruct (IH Hl Hin) as [IH1 [IH2 [IH3 IH4]]].
    repeat split.
    + lia.
    + destruct (Command.is_active x); simpl; lia.
    + exact IH3.
    + constructor; [|exact IH4].
      intros Hin'. apply Hx. apply in_map_iff in Hin'.
      destruct Hin' as [a [<- Ha]]. apply filter_In in Ha.
      apply in_map. tauto.
Qed.

(** When the command counts agree with the list and its ids are unique,
    they still agree after a status toggle or a hard delete started from
    a row of the list, whatever the answer to the dialog and the outcome
    of the round trip; the ids stay unique. *)
Theorem command_counts_are_kept (st : Admin.State) (c : Command.t) (w : World) :
  command_counts_agree st ->
  NoDup (map Command.id (Admin.commands st)) ->
  In c (Admin.commands st) ->
  (forall now, exists st' w',
      Admin.toggleCommandStatus st (Command.id c) (Command.is_active c) now w
      = (Returned st', w')
      /\ command_counts_agree st'
      /\ NoDup (map Command.id (Admin.commands st')))
  /\ (forall confirmed, exists st' w',
        Admin.deleteCommand st (Command.id c) confirmed w = (Returned st', w')
        /\ command_counts_agree st'
        /\ NoDup (map Command.id (Admin.commands st'))).
Proof.
  intros [Htot Hact] Hnd Hin.
  destruct (count_after_flip _ _ Hnd Hin) as [Hflip Hids].
  destruct (count_after_removal _ _ Hnd Hin) as [Hlen [Hrem [Hfind Hnd']]].
  split.
  - intros now. destruct (next_fails w) eqn:E.
    + split_world w. destruct nt as [|[] nt]; try discriminate.
      do 2 eexists. split; [reflexivity |]. now repeat split.
    + rewrite (toggleCommandStatus_ok _ _ _ _ _ E).
      do 2 eexists. split; [reflexivity |].
      unfold command_counts_agree.
      cbn [Admin.commands Admin.stats Admin.setStats Admin.setCommands
           Admin.totalCommands Admin.activeCommands].
      rewrite Hflip, Hids, Hact, Htot. unfold len. rewrite length_map.
      repeat split; assumption.
  - intros [|]; [|do 2 eexists; split; [reflexivity | now repeat split]].
    destruct (next_fails w) eqn:E.
    + split_world w. destruct nt as [|[] nt]; try discriminate.
      do 2 eexists. split; [reflexivity |]. now repeat split.
    + rewrite (deleteCommand_ok _ _ _ E).
      do 2 eexists. split; [reflexivity |].
      unfold command_counts_agree.
      cbn [Admin.commands Admin.stats Admin.setStats Admin.setCommands
           Admin.totalCommands Admin.activeCommands].
      rewrite Hfind, Hlen, Hrem, Hact, Htot.
      repeat split; assumption.
Qed.

Lemma command_counts_are_kept_witness :
  (exists st' w',
     Admin.toggleCommandStatus Demo.console_ "c-4" false "2024-02-01"
       (Demo.world Demo.five [Demo.root] [])
     = (Returned st', w')
     /\ command_counts_agree st')
  /\ (exists st' w',
        Admin.deleteCommand Demo.console_ "c-4" true
          (Demo.world Demo.five [Demo.root] [])
        = (Returned st', w')
        /\ command_counts_agree st').
Proof.
  destruct (@command_counts_are_kept Demo.console_ Demo.top
              (Demo.world Demo.five [Demo.root] [])) as [H1 H2].
  - split; reflexivity.
  - simpl. repeat constructor; simpl; intuition discriminate.
  - simpl. tauto.
  - split.
    + destruct (H1 "2024-02-01") as [st' [w' [E [Hc _]]]]. now exists st', w'.
    + destruct (H2 true) as [st' [w' [E [Hc _]]]]. now exists st', w'.
Defined.

(** Toggling a command's status twice in a row, the second time with the
    flag the first toggle left in the list, restores the list and all
    four counts; in the store the row is active as before and carries
    the time of the second toggle. Both round trips succeed and the ids
    of the list are unique. *)
Theorem double_status_toggle (st : Admin.State) (w : World) (c : Command.t)
    (now1 now2 : string) :
  In c (Admin.commands st) ->
  NoDup (map Command.id (Admin.commands st)) ->
  next_ok 2 w = true ->
  exists st1 w1 st2 w2,
    Admin.toggleCommandStatus st (Command.id c) (Command.is_active c) now1 w
    = (Returned st1, w1)
    /\ In (Command.with_is_active (negb (Command.is_active c)) c)
          (Admin.commands st1)
    /\ Admin.toggleCommandStatus st1 (Command.id c)
         (negb (Command.is_active c)) now2 w1
       = (Returned st2, w2)
    /\ Admin.commands st2 = Admin.commands st
    /\ Admin.stats st2 = Admin.stats st
    /\ (forall r, In r (tbl_commands w2) -> Command.id r = Command.id c ->
                  Command.is_active r = Command.is_active c
                  /\ Command.updated_at r = now2).
Proof.
  intros Hin Hnd Hok.
  destruct (next_ok_succ _ _ Hok) as [Hw Hok1].
  rewrite (toggleCommandStatus_ok _ _ _ _ _ Hw).
  do 4 eexists. split; [reflexivity |].
  split; [|split; [|split; [|split]]].
  - apply in_map_iff. exists c. now rewrite String.eqb_refl.
  - rewrite toggleCommandStatus_ok; [reflexivity |].
    specialize (Hok1 [] [] [] [] []). revert Hok1.
    unfold next_ok, next_fails. simpl.
    destruct (tl (net w)) as [|[] ?]; simpl; congruence.
  - cbn [Admin.commands Admin.stats Admin.setStats Admin.setCommands
         tbl_commands].
    rewrite map_map, negb_involutive.
    rewrite <- (map_id (Admin.commands st)) at 2.
    apply map_ext_in. intros a Ha.
    destruct (String.eqb_spec (Command.id a) (Command.id c)) as [He|Hne].
    + assert (a = c) by (eapply unique_key; eauto). subst a.
      rewrite with_is_active_id, String.eqb_refl. now destruct c.
    + now destruct (String.eqb_spec (Command.id a) (Command.id c)).
  - cbn [Admin.commands Admin.stats Admin.setStats Admin.setCommands].
    destruct (Admin.stats st) as [tu tc ac au]. simpl. f_equal.
    destruct (Command.is_active c); simpl; lia.
  - cbn [tbl_commands].
    intros r Hr Hid. apply update_where_In in Hr.
    destruct Hr as [x [Hx ->]]. apply update_where_In in Hx.
    destruct Hx as [y [_ ->]]. revert Hid.
    destruct (String.eqb_spec (Command.id y) (Command.id c)) as [He|Hne];
      simpl.
    + rewrite He, String.eqb_refl. simpl. intros _.
      now rewrite negb_involutive.
    + destruct (String.eqb_spec (Command.id y) (Command.id c));
        [contradiction | congruence].
Qed.

Lemma double_status_toggle_witness :
  exists st1 w1 st2 w2,
    Admin.toggleCommandStatus Demo.console_ "c-1" true "2024-02-01"
      (Demo.world Demo.five [Demo.root] [])
    = (Returned st1, w1)
    /\ Admin.toggleCommandStatus st1 "c-1" false "2024-02-02" w1
       = (Returned st2, w2)
    /\ Admin.commands st2 = Demo.five
    /\ Admin.stats st2 = Admin.stats Demo.console_.
Proof.
  destruct (@double_status_toggle Demo.console_
              (Demo.world Demo.five [Demo.root] []) Demo.ls
              "2024-02-01" "2024-02-02")
    as [st1 [w1 [st2 [w2 [H1 [_ [H2 [H3 [H4 _]]]]]]]]].
  - simpl. tauto.
  - simpl. repeat constructor; simpl; intuition discriminate.
  - reflexivity.
  - exists st1, w1, st2, w2. repeat split; assumption.
Defined.

(** A soft-deleted command comes back: after the catalog's delete, the
    administration page fetches the row as inactive, and a status toggle
    on that row followed by a catalog fetch lists the command again, with
    its fields as before and the time of the toggle. All five round trips
    succeed. *)
Theorem deactivated_command_can_be_restored (cst : Commands.State)
    (ast : Admin.State) (w : World) (c : Command.t) (now : string) :
  In c (tbl_commands w) ->
  next_ok 5 w = true ->
  exists cst1 w1 ast1 w2,
    Commands.handleDeleteCommand cst (Command.id c) true w = (Returned cst1, w1)
    /\ Admin.fetchData ast w1 = (Returned ast1, w2)
    /\ In (Command.with_is_active false c) (Admin.commands ast1)
    /\ exists ast2 w3 cst2 w4,
         Admin.toggleCommandStatus ast1
           (Command.id (Command.with_is_active false c))
           (Command.is_active (Command.with_is_active false c)) now w2
         = (Returned ast2, w3)
         /\ Commands.fetchCommands cst1 w3 = (Returned cst2, w4)
         /\ In (Command.mk (Command.id c) (Command.name c)
                  (Command.description c) (Command.command c)
                  (Command.category c) (Command.created_at c) now
                  (Command.created_by c) true)
               (Commands.commands cst2).
Proof.
  intros Hin Hok. split_world w.
  destruct nt as [|[] [|[] [|[] [|[] [|[] nt]]]]]; try discriminate.
  all: do 4 eexists;
    (split; [rewrite handleDeleteCommand_ok by reflexivity; reflexivity |]);
    (split; [rewrite fetchData_ok by reflexivity; reflexivity |]);
    cbn [Admin.commands tbl_commands tbl_users net wire console alerts];
    (split;
     [apply order_desc_In, update_where_In; exists c;
      split; [exact Hin | now rewrite String.eqb_refl] |]);
    do 4 eexists;
    (split; [rewrite toggleCommandStatus_ok by reflexivity; reflexivity |]);
    (split; [rewrite fetchCommands_ok by reflexivity; reflexivity |]);
    cbn [Commands.commands Commands.setCommands Commands.setLoading
         tbl_commands];
    apply order_desc_In, filter_In; (split; [|reflexivity]);
    apply update_where_In;
    exists (Command.with_is_active false c);
    (split;
     [apply update_where_In; exists c;
      split; [exact Hin | now rewrite String.eqb_refl] |]);
    simpl; now rewrite String.eqb_refl.
Qed.

Lemma deactivated_command_can_be_restored_witness :
  exists cst1 w1 ast1 w2 ast2 w3 cst2 w4,
    Commands.handleDeleteCommand Demo.catalog "c-2" true
      (Demo.world Demo.three [Demo.root] [])
    = (Returned cst1, w1)
    /\ Admin.fetchData Admin.initial w1 = (Returned ast1, w2)
    /\ Admin.toggleCommandStatus ast1 "c-2" false "2024-02-01" w2
       = (Returned ast2, w3)
    /\ Commands.fetchCommands cst1 w3 = (Returned cst2, w4)
    /\ map Command.id (filter (fun x => Command.id x =? "c-2")
                              (Commands.commands cst2)) = ["c-2"%string].
Proof.
  destruct (deactivated_command_can_be_restored Demo.catalog Admin.initial
              (Demo.world Demo.three [Demo.root] []) Demo.ping "2024-02-01")
    as [cst1 [w1 [ast1 [w2 [H1 [H2 [_ [ast2 [w3 [cst2 [w4 [H3 [H4 _]]]]]]]]]]]]].
  - simpl. tauto.
  - reflexivity.
  - exists cst1, w1, ast1, w2, ast2, w3, cst2, w4.
    split; [exact H1 |]. split; [exact H2 |]. split; [exact H3 |].
    split; [exact H4 |].
    vm_compute in H1. injection H1 as <- <-.
    vm_compute in H2. injection H2 as <- <-.
    vm_compute in H3. injection H3 as <- <-.
    vm_compute in H4. injection H4 as <- <-.
    reflexivity.
Defined.

(* ================================================================== *)
(** * Editing a command                                                *)
(* ================================================================== *)

Lemma filter_none {A} (p : A -> bool) (l : list A) :
  (forall a, In a l -> p a = false) -> filter p l = [].
Proof.
  induction l as [|x l IH]; simpl; intros H; [reflexivity |].
  rewrite (H x (or_introl eq_refl)). apply IH. auto.
Qed.

Lemma filter_unique_id (l : list Command.t) (r : Command.t) :
  NoDup (map Command.id l) -> In r l ->
  filter (fun c => Command.id c =? Command.id r) l = [r].
Proof.
  induction l as [|x l IH]; simpl; [tauto |].
  intros Hnd Hin. inversion Hnd as [|? ? Hx Hl]; subst.
  destruct (String.eqb_spec (Command.id x) (Command.id r)) as [He|Hne].
  - assert (x = r) as -> by (apply (unique_key Command.id (x :: l)); simpl; auto).
    f_equal. apply filter_none. intros a Ha.
    destruct (String.eqb_spec (Command.id a) (Command.id r)) as [E|_];
      [|reflexivity].
    elim Hx. rewrite <- E. now apply in_map.
  - destruct Hin as [->|Hin]; [now elim Hne | now apply IH].
Qed.

Lemma handleUpdateCommand_ok (st : Commands.State) (id : string)
    (updates : CommandPatch) (now : string) (w : World) (r : Command.t) :
  next_fails w = false ->
  filter (fun c => Command.id c =? id) (tbl_commands w) = [r] ->
  Commands.handleUpdateCommand st id updates now w =
  (Returned
     (Commands.setEditingCommand None
        (Commands.setCommands
           (map (fun cmd => if Command.id cmd =? id
                            then patch_command (stamp now updates) r
                            else cmd)
                (Commands.commands st))
           st)),
   mkWorld
     (update_where (fun c => Command.id c =? id)
        (patch_command (stamp now updates)) (tbl_commands w))
     (tbl_users w) (tl (net w))
     (wire w ++ [UpdateCommands (stamp now updates) (EqId id) true])
     (console w) (alerts w)).
Proof.
  intros H Hr. split_world w.
  destruct nt as [|[] nt]; try discriminate;
    unfold Commands.handleUpdateCommand; run_io; now rewrite Hr.
Qed.

Lemma fill_is_active (inputs : list CommandModal.Input) (f : CommandData) :
  cd_is_active (CommandModal.fill inputs f) = cd_is_active f.
Proof.
  unfold CommandModal.fill. revert f.
  induction inputs as [|i inputs IH]; intros f; simpl; [reflexivity |].
  rewrite IH. now destruct i.
Qed.

(** A successful update of a command the store holds once: the row the
    store returns keeps the id and carries the time of the update, it
    replaces every local entry of that id while the other entries and the
    order stay, the edit dialog closes, and in the store only that row
    changed. The update does not carry an id of its own. *)
Theorem update_replaces_row (st : Commands.State) (updates : CommandPatch)
    (now : string) (w : World) (r : Command.t) :
  next_fails w = false ->
  NoDup (map Command.id (tbl_commands w)) ->
  In r (tbl_commands w) ->
  p_id updates = None ->
  exists st' w' data,
    Commands.handleUpdateCommand st (Command.id r) updates now w
    = (Returned st', w')
    /\ data = patch_command (stamp now updates) r
    /\ Command.id data = Command.id r
    /\ Command.updated_at data = now
    /\ Commands.commands st'
       = map (fun cmd => if Command.id cmd =? Command.id r then data else cmd)
             (Commands.commands st)
    /\ map Command.id (Commands.commands st') = map Command.id (Commands.commands st)
    /\ Commands.editingCommand st' = None
    /\ tbl_commands w'
       = map (fun x => if Command.id x =? Command.id r then data else x)
             (tbl_commands w)
    /\ map Command.id (tbl_commands w') = map Command.id (tbl_commands w).
Proof.
  intros Hw Hnd Hin Hid.
  rewrite (handleUpdateCommand_ok st _ updates now w Hw
             (filter_unique_id _ _ Hnd Hin)).
  assert (Command.id (patch_command (stamp now updates) r) = Command.id r)
    as Hsame by (simpl; now rewrite Hid).
  do 2 eexists. exists (patch_command (stamp now updates) r).
  split; [reflexivity |]. split; [reflexivity |].
  split; [exact Hsame |]. split; [reflexivity |].
  cbn [Commands.commands Commands.setCommands Commands.setEditingCommand
       Commands.editingCommand tbl_commands].
  split; [reflexivity |]. split; [|split; [reflexivity |]; split].
  - rewrite map_map. apply map_ext. intros a.
    destruct (String.eqb_spec (Command.id a) (Command.id r)); congruence.
  - unfold update_where. apply map_ext_in. intros a Ha.
    destruct (String.eqb_spec (Command.id a) (Command.id r)) as [E|_];
      [|reflexivity].
    now rewrite (unique_key Command.id _ a r Hnd Ha Hin E).
  - unfold update_where. rewrite map_map. apply map_ext. intros a.
    destruct (String.eqb_spec (Command.id a) (Command.id r)); [|reflexivity].
    simpl. now rewrite Hid.
Qed.

Lemma update_replaces_row_witness :
  exists st' w' data,
    Commands.handleUpdateCommand Demo.catalog "c-1" Demo.rename "2024-03-01"
      (Demo.world Demo.three [Demo.root] [])
    = (Returned st', w')
    /\ Command.name data = "List all files"%string
    /\ Commands.commands st' = [data; Demo.ping; Demo.df]
    /\ tbl_commands w' = [data; Demo.ping; Demo.df].
Proof.
  destruct (@update_replaces_row Demo.catalog Demo.rename "2024-03-01"
              (Demo.world Demo.three [Demo.root] []) Demo.ls)
    as [st' [w' [data [H1 [H2 [_ [_ [H3 [_ [_ [H4 _]]]]]]]]]]].
  - reflexivity.
  - simpl. repeat constructor; simpl; intuition discriminate.
  - simpl. tauto.
  - reflexivity.
  - exists st', w', data. split; [exact H1 |].
    split; [now rewrite H2 |].
    split; [rewrite H3 | rewrite H4]; reflexivity.
Defined.

(** Saving the edit dialog. With a command being edited the form goes to
    the update of that command; the row written keeps the store's id,
    creator and creation time, takes the four fields of the form and the
    time of the update, and takes [is_active] from the catalog's copy of
    the command (the form has no control for it), whatever the store's
    row said. *)
Theorem edit_through_modal (st : Commands.State) (user : option AuthUser)
    (ec r : Command.t) (inputs : list CommandModal.Input)
    (srv_id srv_now now : string) (w : World) :
  Commands.editingCommand st = Some ec ->
  Command.id r = Command.id ec ->
  In r (tbl_commands w) ->
  NoDup (map Command.id (tbl_commands w)) ->
  next_fails w = false ->
  let form := CommandModal.fill inputs (CommandModal.loadFormData (Some ec)) in
  let saved :=
    Command.mk (Command.id r) (cd_name form) (cd_description form)
      (cd_command form) (cd_category form) (Command.created_at r) now
      (Command.created_by r) (Command.is_active ec) in
  exists st' w',
    CommandsRender.onSubmit st user form srv_id srv_now now w
    = (Returned st', w')
    /\ In saved (tbl_commands w')
    /\ (forall x, In x (tbl_commands w') -> Command.id x = Command.id r ->
                  x = saved)
    /\ (forall x, In x (Commands.commands st') -> Command.id x = Command.id r ->
                  x = saved)
    /\ length (tbl_commands w') = length (tbl_commands w)
    /\ CommandsRender.isOpen st' = Commands.showAddModal st.
Proof.
  intros Hed Hid Hin Hnd Hw form saved.
  unfold CommandsRender.onSubmit. rewrite Hed, <- Hid.
  rewrite (handleUpdateCommand_ok st _ (CommandsRender.as_updates form) now w
             Hw (filter_unique_id _ _ Hnd Hin)).
  assert (patch_command (stamp now (CommandsRender.as_updates form)) r = saved)
    as Hsaved.
  { unfold saved, patch_command, stamp, CommandsRender.as_updates.
    cbn [p_id p_name p_description p_command p_category p_created_at
         p_updated_at p_created_by p_is_active or_else].
    unfold form. now rewrite fill_is_active. }
  do 2 eexists. split; [reflexivity |].
  cbn [Commands.commands Commands.setCommands Commands.setEditingCommand
       tbl_commands].
  split; [|split; [|split; [|split]]].
  - apply update_where_In. exists r. split; [exact Hin |].
    now rewrite String.eqb_refl.
  - intros x Hx Hxid. apply update_where_In in Hx.
    destruct Hx as [a [Ha ->]]. revert Hxid.
    destruct (String.eqb_spec (Command.id a) (Command.id r)) as [E|Hne].
    + intros _. now rewrite (unique_key Command.id _ a r Hnd Ha Hin E).
    + intros E. now elim Hne.
  - intros x Hx Hxid. apply in_map_iff in Hx.
    destruct Hx as [a [<- Ha]]. revert Hxid.
    destruct (String.eqb_spec (Command.id a) (Command.id r)) as [E|Hne].
    + intros _. exact Hsaved.
    + intros E. now elim Hne.
  - unfold update_where. apply length_map.
  - unfold CommandsRender.isOpen. simpl. apply orb_false_r.
Qed.

Lemma edit_through_modal_witness :
  exists st' w',
    CommandsRender.onSubmit
      (Commands.setEditingCommand (Some Demo.ls) Demo.catalog)
      (Some Demo.operator)
      (CommandModal.fill [CommandModal.NameInput "List"]
         (CommandModal.loadFormData (Some Demo.ls)))
      "c-9" "2024-03-01" "2024-03-02"
      (Demo.world [Command.with_is_active false Demo.ls] [Demo.root] [])
    = (Returned st', w')
    /\ map Command.name (tbl_commands w') = ["List"%string]
    /\ map Command.is_active (tbl_commands w') = [true].
Proof.
  destruct (@edit_through_modal
              (Commands.setEditingCommand (Some Demo.ls) Demo.catalog)
              (Some Demo.operator) Demo.ls
              (Command.with_is_active false Demo.ls)
              [CommandModal.NameInput "List"] "c-9" "2024-03-01" "2024-03-02"
              (Demo.world [Command.with_is_active false Demo.ls] [Demo.root] []))
    as [st' [w' [H1 _]]].
  - reflexivity.
  - reflexivity.
  - simpl. tauto.
  - simpl. repeat constructor. simpl. tauto.
  - reflexivity.
  - exists st', w'. split; [exact H1 |].
    vm_compute in H1. injection H1 as _ <-. split; reflexivity.
Defined.

(** An update either changes nothing on the page, or replaces the local
    entries of that id by the patched row of the store. *)
Lemma handleUpdateCommand_cases (st : Commands.State) (id : string)
    (updates : CommandPatch) (now : string) (w : World) :
  exists w',
    Commands.handleUpdateCommand st id updates now w = (Returned st, w')
    \/ exists r,
         In r (tbl_commands w)
         /\ Commands.handleUpdateCommand st id updates now w
            = (Returned
                 (Commands.setEditingCommand None
                    (Commands.setCommands
                       (map (fun cmd => if Command.id cmd =? id
                                        then patch_command (stamp now updates) r
                                        else cmd)
                            (Commands.commands st))
                       st)),
               w').
Proof.
  destruct (next_fails w) eqn:E.
  - split_world w. destruct nt as [|[] nt]; try discriminate.
    eexists. left. reflexivity.
  - destruct (filter (fun c => Command.id c =? id) (tbl_commands w))
      as [|r [|r' l]] eqn:F.
    + split_world w. unfold Commands.handleUpdateCommand. run_io.
      destruct nt as [|[] nt]; try discriminate; rewrite F;
        eexists; left; reflexivity.
    + rewrite (handleUpdateCommand_ok st id updates now w E F).
      eexists. right. exists r. split; [|reflexivity].
      assert (In r (filter (fun c => Command.id c =? id) (tbl_commands w)))
        as Hr by (rewrite F; simpl; auto).
      apply filter_In in Hr. tauto.
    + split_world w. unfold Commands.handleUpdateCommand. run_io.
      destruct nt as [|[] nt]; try discriminate; rewrite F;
        eexists; left; reflexivity.
Qed.

(** The catalog only ever lists active commands: if every listed command
    is active, so is every command listed after a fetch, after an add
    saved from the dialog, after an edit of a listed command saved from
    the dialog, and after a delete, whatever the outcome of the round
    trip. *)
Theorem catalog_lists_only_active (st : Commands.State) (w : World) :
  Forall (fun c => Command.is_active c = true) (Commands.commands st) ->
  (exists st' w',
     Commands.fetchCommands st w = (Returned st', w')
     /\ Forall (fun c => Command.is_active c = true) (Commands.commands st'))
  /\ (forall user inputs srv_id srv_now, exists st' w',
        Commands.handleAddCommand st user
          (CommandModal.fill inputs CommandModal.blank) srv_id srv_now w
        = (Returned st', w')
        /\ Forall (fun c => Command.is_active c = true) (Commands.commands st'))
  /\ (forall ec inputs now,
        In ec (Commands.commands st) ->
        exists st' w',
          Commands.handleUpdateCommand st (Command.id ec)
            (CommandsRender.as_updates
               (CommandModal.fill inputs
                  (CommandModal.loadFormData (Some ec)))) now w
          = (Returned st', w')
          /\ Forall (fun c => Command.is_active c = true)
                    (Commands.commands st'))
  /\ (forall id confirmed, exists st' w',
        Commands.handleDeleteCommand st id confirmed w = (Returned st', w')
        /\ Forall (fun c => Command.is_active c = true) (Commands.commands st')).
Proof.
  intros Hall. split; [|split; [|split]].
  - destruct (next_fails w) eqn:E.
    + split_world w. destruct nt as [|[] nt]; try discriminate.
      do 2 eexists. split; [reflexivity | exact Hall].
    + rewrite (fetchCommands_ok st w E).
      do 2 eexists. split; [reflexivity |]. simpl.
      apply Forall_forall. intros c Hc.
      apply order_desc_In, filter_In in Hc. tauto.
  - intros [user|] inputs srv_id srv_now;
      [|do 2 eexists; split; [reflexivity | exact Hall]].
    destruct (next_fails w) eqn:E.
    + split_world w. destruct nt as [|[] nt]; try discriminate.
      do 2 eexists. split; [reflexivity | exact Hall].
    + rewrite (handleAddCommand_ok st user _ srv_id srv_now w E).
      do 2 eexists. split; [reflexivity |].
      cbn [Commands.commands Commands.setCommands Commands.setShowAddModal].
      constructor; [|exact Hall].
      unfold inserted_row. cbn [Command.is_active ins_data].
      now rewrite fill_is_active.
  - intros ec inputs now Hec.
    assert (Command.is_active ec = true) as Hact
      by (rewrite Forall_forall in Hall; now apply Hall).
    destruct (handleUpdateCommand_cases st (Command.id ec)
                (CommandsRender.as_updates
                   (CommandModal.fill inputs
                      (CommandModal.loadFormData (Some ec)))) now w)
      as [w' [E|[r [_ E]]]]; rewrite E;
      do 2 eexists; (split; [reflexivity |]); [exact Hall |].
    cbn [Commands.commands Commands.setCommands Commands.setEditingCommand].
    apply Forall_forall. intros x Hx. apply in_map_iff in Hx.
    destruct Hx as [a [<- Ha]].
    destruct (Command.id a =? Command.id ec);
      [|rewrite Forall_forall in Hall; now apply Hall].
    unfold patch_command, stamp, CommandsRender.as_updates.
    cbn [Command.is_active or_else p_is_active].
    now rewrite fill_is_active.
  - intros id [|]; [|do 2 eexists; split; [reflexivity | exact Hall]].
    destruct (next_fails w) eqn:E.
    + split_world w. destruct nt as [|[] nt]; try discriminate.
      do 2 eexists. split; [reflexivity | exact Hall].
    + rewrite (handleDeleteCommand_ok st id w E).
      do 2 eexists. split; [reflexivity |]. simpl.
      apply Forall_forall. intros c Hc. apply filter_In in Hc.
      rewrite Forall_forall in Hall. now apply Hall.
Qed.

Lemma catalog_lists_only_active_witness :
  (exists st' w',
     Commands.handleAddCommand Demo.catalog (Some Demo.operator)
       (CommandModal.fill [CommandModal.NameInput "Uptime"] CommandModal.blank)
       "c-9" "2024-03-01" (Demo.world Demo.three [Demo.root] [])
     = (Returned st', w')
     /\ Forall (fun c => Command.is_active c = true) (Commands.commands st'))
  /\ (exists st' w',
        Commands.handleUpdateCommand Demo.catalog "c-1"
          (CommandsRender.as_updates
             (CommandModal.fill [CommandModal.CommandInput "ls -l"]
                (CommandModal.loadFormData (Some Demo.ls))))
          "2024-03-02" (Demo.world Demo.three [Demo.root] [])
        = (Returned st', w')
        /\ Forall (fun c => Command.is_active c = true) (Commands.commands st')).
Proof.
  destruct (@catalog_lists_only_active Demo.catalog
              (Demo.world Demo.three [Demo.root] [])) as [_ [Hadd [Hupd _]]].
  - repeat constructor.
  - split.
    + apply (Hadd (Some Demo.operator) [CommandModal.NameInput "Uptime"]).
    + apply (Hupd Demo.ls [CommandModal.CommandInput "ls -l"]).
      simpl. tauto.
Defined.

(** The administration fetch when one of its two round trips fails. *)
Lemma fetchData_failed (st : Admin.State) (w : World) :
  next_ok 2 w = false ->
  exists nt' wr',
    Admin.fetchData st w
    = (Returned (Admin.setLoading false st),
       mkWorld (tbl_commands w) (tbl_users w) nt' wr'
               (console w ++ ["Error fetching admin data:"%string])
               (alerts w)).
Proof.
  intros H. split_world w.
  destruct nt as [|[] [|[] nt]]; try discriminate;
    unfold Admin.fetchData; run_io; do 2 eexists; reflexivity.
Qed.

(* ================================================================== *)
(** * More on the database reset                                       *)
(* ================================================================== *)

Lemma reset_user_patch (u : UserProfile.t) :
  patch_user (Build_UserPatch (Some false) None) u
  = UserProfile.with_is_admin false u.
Proof. reflexivity. Qed.

(** A confirmed reset that does not go all the way. If the delete fails
    nothing is written; if the delete succeeds and the user update fails
    the commands are gone and the users are untouched; in both cases the
    error alert is shown and the page keeps its state. If both succeed
    and the fetch that follows fails, the success alert is shown and the
    page still holds the lists and counts from before the reset. *)
Theorem reset_partial_outcomes (st : Admin.State) (op : AuthUser) (w : World) :
  (next_fails w = true ->
   exists w',
     Admin.resetDatabase st (Some op) true true (Some "RESET") w
     = (Returned st, w')
     /\ tbl_commands w' = tbl_commands w
     /\ tbl_users w' = tbl_users w
     /\ alerts w'
        = alerts w ++ ["Error resetting database. Please try again."%string])
  /\ (next_ok 1 w = true -> next_ok 2 w = false ->
      exists w',
        Admin.resetDatabase st (Some op) true true (Some "RESET") w
        = (Returned st, w')
        /\ tbl_commands w'
           = filter (fun c => Command.id c =? Admin.nil_uuid) (tbl_commands w)
        /\ tbl_users w' = tbl_users w
        /\ alerts w'
           = alerts w ++ ["Error resetting database. Please try again."%string])
  /\ (next_ok 2 w = true -> next_ok 4 w = false ->
      exists w',
        Admin.resetDatabase st (Some op) true true (Some "RESET") w
        = (Returned (Admin.setLoading false st), w')
        /\ tbl_commands w'
           = filter (fun c => Command.id c =? Admin.nil_uuid) (tbl_commands w)
        /\ alerts w' = alerts w ++ ["Database reset successfully!"%string]
        /\ console w' = console w ++ ["Error fetching admin data:"%string]).
Proof.
  assert (forall l : list Command.t,
            filter (fun c => negb (negb (Command.id c =? Admin.nil_uuid))) l
            = filter (fun c => Command.id c =? Admin.nil_uuid) l) as Hnn
    by (intros l; apply filter_ext; intros c; apply negb_involutive).
  split; [|split].
  - intros H. split_world w. destruct nt as [|[] nt]; try discriminate.
    eexists. repeat split.
  - intros H1 H2. split_world w.
    destruct nt as [|[] [|[] nt]]; try discriminate.
    eexists. split; [reflexivity |]. simpl. rewrite Hnn. repeat split.
  - intros H2 H4. rewrite (resetDatabase_ok st op w H2).
    match goal with |- context [Admin.fetchData st ?w2] =>
      destruct (fetchData_failed st w2) as [nt' [wr' E]]
    end.
    + split_world w.
      destruct nt as [|[] [|[] [|[] [|[] nt]]]]; try discriminate; reflexivity.
    + eexists. split; [exact E |]. simpl. rewrite Hnn. repeat split.
Qed.

Lemma reset_partial_outcomes_witness :
  (exists w',
     Admin.resetDatabase Demo.console_ (Some Demo.operator) true true
       (Some "RESET") (Demo.world Demo.five [Demo.root; Demo.ann] [false])
     = (Returned Demo.console_, w')
     /\ tbl_commands w' = Demo.five)
  /\ (exists w',
     Admin.resetDatabase Demo.console_ (Some Demo.operator) true true
       (Some "RESET") (Demo.world Demo.five [Demo.root; Demo.ann] [true; false])
     = (Returned Demo.console_, w')
     /\ tbl_commands w' = []
     /\ tbl_users w' = [Demo.root; Demo.ann])
  /\ (exists w',
        Admin.resetDatabase Demo.console_ (Some Demo.operator) true true
          (Some "RESET")
          (Demo.world Demo.five [Demo.root; Demo.ann] [true; true; false])
        = (Returned Demo.console_, w')
        /\ tbl_commands w' = []
        /\ Admin.commands Demo.console_ = Demo.five).
Proof.
  split; [|split].
  - destruct (reset_partial_outcomes Demo.console_ Demo.operator
                (Demo.world Demo.five [Demo.root; Demo.ann] [false]))
      as [H _].
    destruct (H eq_refl) as [w' [H1 [H2 _]]].
    exists w'. split; [exact H1 | exact H2].
  - destruct (reset_partial_outcomes Demo.console_ Demo.operator
                (Demo.world Demo.five [Demo.root; Demo.ann] [true; false]))
      as [_ [H _]].
    destruct (H eq_refl eq_refl) as [w' [H1 [H2 [H3 _]]]].
    exists w'. split; [exact H1 |]. split; [exact H2 | exact H3].
  - destruct (reset_partial_outcomes Demo.console_ Demo.operator
                (Demo.world Demo.five [Demo.root; Demo.ann] [true; true; false]))
      as [_ [_ H]].
    destruct (H eq_refl eq_refl) as [w' [H1 [H2 _]]].
    exists w'. split; [exact H1 |]. split; [exact H2 | reflexivity].
Defined.

(** A reset that goes all the way, fetch included: the page then lists
    only commands with the all-zero id, every user it lists as
    administrator has the operator's id and had the flag before, and all
    four counts are those of the lists. *)
Theorem reset_then_refetch (st : Admin.State) (op : AuthUser) (w : World) :
  next_ok 4 w = true ->
  exists st' w',
    Admin.resetDatabase st (Some op) true true (Some "RESET") w
    = (Returned st', w')
    /\ (forall c, In c (Admin.commands st') -> Command.id c = Admin.nil_uuid)
    /\ (forall u, In u (Admin.users st') -> UserProfile.is_admin u = true ->
                  UserProfile.id u = auth_id op /\ In u (tbl_users w))
    /\ length (Admin.users st') = length (tbl_users w)
    /\ command_counts_agree st'
    /\ user_counts_agree st'
    /\ Admin.loading st' = false.
Proof.
  intros H.
  assert (next_ok 2 w = true) as H2.
  { split_world w.
    destruct nt as [|[] [|[] nt]]; try discriminate; reflexivity. }
  rewrite (resetDatabase_ok st op w H2).
  rewrite fetchData_ok.
  2:{ split_world w.
      destruct nt as [|[] [|[] [|[] [|[] nt]]]]; try discriminate;
        reflexivity. }
  do 2 eexists. split; [reflexivity |].
  unfold command_counts_agree, user_counts_agree.
  cbn [Admin.commands Admin.users Admin.stats Admin.totalCommands
       Admin.activeCommands Admin.totalUsers Admin.adminUsers Admin.loading
       tbl_commands tbl_users].
  split; [|split; [|split; [|repeat split]]].
  - intros c Hc. apply order_desc_In, filter_In in Hc.
    destruct Hc as [_ Hc]. rewrite negb_involutive in Hc.
    now apply String.eqb_eq.
  - intros u Hu Hadm. apply order_desc_In, update_where_In in Hu.
    destruct Hu as [x [Hx ->]]. revert Hadm.
    destruct (String.eqb_spec (UserProfile.id x) (auth_id op)); simpl.
    + tauto.
    + discriminate.
  - rewrite order_desc_length. unfold update_where. apply length_map.
Qed.

Lemma reset_then_refetch_witness :
  exists st' w',
    Admin.resetDatabase Demo.console_ (Some Demo.operator) true true
      (Some "RESET")
      (Demo.world (Demo.ghost :: Demo.five) [Demo.root; Demo.ann; Demo.bob] [])
    = (Returned st', w')
    /\ Admin.commands st' = [Demo.ghost]
    /\ map UserProfile.is_admin (Admin.users st') = [true; false; false]
    /\ command_counts_agree st'
    /\ user_counts_agree st'.
Proof.
  destruct (reset_then_refetch Demo.console_ Demo.operator
              (Demo.world (Demo.ghost :: Demo.five)
                          [Demo.root; Demo.ann; Demo.bob] []))
    as [st' [w' [H1 [_ [_ [_ [H2 [H3 _]]]]]]]]; [reflexivity |].
  exists st', w'. split; [exact H1 |].
  split; [|split; [|split; assumption]];
    vm_compute in H1; injection H1 as <- _; reflexivity.
Defined.

Lemma update_where_idem {A} (sel : A -> bool) (f : A -> A) (l : list A) :
  (forall x, sel (f x) = sel x) -> (forall x, f (f x) = f x) ->
  update_where sel f (update_where sel f l) = update_where sel f l.
Proof.
  intros Hsel Hf. unfold update_where. rewrite map_map.
  apply map_ext. intros x.
  destruct (sel x) eqn:E; [now rewrite Hsel, E, Hf | now rewrite E].
Qed.

(** Resetting twice is resetting once: a second successful reset by the
    same operator leaves both tables exactly as the first one left them. *)
Theorem reset_is_idempotent (st st2 : Admin.State) (op : AuthUser) (w : World) :
  next_ok 2 w = true ->
  exists st' w',
    Admin.resetDatabase st (Some op) true true (Some "RESET") w
    = (Returned st', w')
    /\ (next_ok 2 w' = true ->
        exists st'' w'',
          Admin.resetDatabase st2 (Some op) true true (Some "RESET") w'
          = (Returned st'', w'')
          /\ tbl_commands w'' = tbl_commands w'
          /\ tbl_users w'' = tbl_users w').
Proof.
  intros H. rewrite (resetDatabase_ok st op w H).
  match goal with |- context [Admin.fetchData st ?w2] =>
    destruct (fetchData_reads_only st w2) as [st' [w' [E [Hc [Hu _]]]]]
  end.
  exists st', w'. split; [exact E |]. intros H'.
  rewrite (resetDatabase_ok st2 op w' H').
  match goal with |- context [Admin.fetchData st2 ?w2] =>
    destruct (fetchData_reads_only st2 w2) as [st'' [w'' [E' [Hc' [Hu' _]]]]]
  end.
  exists st'', w''. split; [exact E' |].
  rewrite Hc', Hu', Hc, Hu. simpl. split.
  - apply filter_idem.
  - apply update_where_idem; reflexivity.
Qed.

Lemma reset_is_idempotent_witness :
  exists st' w' st'' w'',
    Admin.resetDatabase Demo.console_ (Some Demo.operator) true true
      (Some "RESET")
      (Demo.world (Demo.ghost :: Demo.five) [Demo.root; Demo.ann] [])
    = (Returned st', w')
    /\ Admin.resetDatabase Demo.console_ (Some Demo.operator) true true
         (Some "RESET") w'
       = (Returned st'', w'')
    /\ tbl_commands w'' = tbl_commands w'
    /\ tbl_users w'' = tbl_users w'.
Proof.
  destruct (reset_is_idempotent Demo.console_ Demo.console_ Demo.operator
              (Demo.world (Demo.ghost :: Demo.five) [Demo.root; Demo.ann] []))
    as [st' [w' [H1 H2]]]; [reflexivity |].
  assert (next_ok 2 w' = true) as Hok
    by (vm_compute in H1; injection H1 as _ <-; reflexivity).
  destruct (H2 Hok) as [st'' [w'' [H3 [H4 H5]]]].
  exists st', w', st'', w''. repeat split; assumption.
Defined.

(* ================================================================== *)
(** * More on the admin flag                                           *)
(* ================================================================== *)

(** Whatever the outcome of the round trip, an admin toggle leaves the
    commands table alone and keeps every user row in place with its id,
    e-mail, name and creation time; rows of another id are not changed
    at all. *)
Theorem admin_toggle_touches_one_user :
  forall (st : Admin.State) (userId : string) (isAdmin : bool) (now : string)
         (w : World),
    let w' := snd (Admin.toggleUserAdmin st userId isAdmin now w) in
    tbl_commands w' = tbl_commands w
    /\ Forall2 (fun a b =>
                  UserProfile.id b = UserProfile.id a
                  /\ UserProfile.email b = UserProfile.email a
                  /\ UserProfile.full_name b = UserProfile.full_name a
                  /\ UserProfile.created_at b = UserProfile.created_at a
                  /\ (UserProfile.id a <> userId -> b = a))
               (tbl_users w) (tbl_users w').
Proof.
  intros st userId isAdmin now w.
  assert (forall a : UserProfile.t,
            UserProfile.id a = UserProfile.id a
            /\ UserProfile.email a = UserProfile.email a
            /\ UserProfile.full_name a = UserProfile.full_name a
            /\ UserProfile.created_at a = UserProfile.created_at a
            /\ (UserProfile.id a <> userId -> a = a)) as Hrefl
    by (intros a; tauto).
  split_world w. destruct nt as [|[] nt]; simpl; (split; [reflexivity |]).
  - apply Forall2_update_where; [exact Hrefl |].
    intros x Hx. apply String.eqb_eq in Hx. simpl. tauto.
  - apply Forall2_update_where; [exact Hrefl |].
    intros x Hx. apply String.eqb_eq in Hx. simpl. tauto.
  - now apply Forall2_same.
Qed.
